(** * claudanfibot: the store, the session manager, the model client and the
      message handlers, with the properties of their specification.

    Sources embedded here:
    - [app/api/claude_client.py]: [ClaudeClient], [Database], [SessionManager];
    - [app/main.py]: the command handlers and [handle_message].

    Conventions of the embedding.
    - The three SQLite tables are finite maps and a list; a TEXT column that
      only ever holds [json.dumps] of a value is kept as that value, so that
      [json.loads] of the column is the column itself.  The literal ['[]']
      written by [clear_session] is the empty history, the literal ['{}'] of
      the schema default is the empty settings map.
    - SQLite runs with its default of unenforced foreign keys (the code never
      issues a PRAGMA), so the REFERENCES clauses constrain nothing.
    - [CURRENT_TIMESTAMP] is the [now] field of the world.
    - Python exceptions are values of [Exception]; a call that may raise
      returns in the monad [M].  The store is taken to be healthy (no I/O
      fault); the one storage error that the statements themselves can
      produce, a duplicate primary key, is modelled.
    - The transport may raise, a response may have any status, and its body
      may fail to decode as JSON.  The messenger delivers the texts of the bot
      itself; a reply of the model is arbitrary text, which the messenger may
      refuse (an empty text, a text beyond its length limit).
    - A [str] is the string of its UTF-8 bytes.
    - Python floats are IEEE 754 binary64 values, [spec_float] of the
      standard library at precision 53; [float(str)] reads the decimal digits
      of Unicode 14, as CPython 3.11 does. *)

From Stdlib Require Import ZArith Ascii String List Bool Lia.
From Stdlib.Floats Require Import SpecFloat.
From stdpp Require Import base option list strings pretty gmap fin_maps.

Local Open Scope string_scope.
Local Open Scope list_scope.
Local Open Scope Z_scope.

(** ** Python floats and [float(str)] *)

Module PyFloat.

Definition prec : Z := 53.
Definition emax : Z := 1024.

Abbreviation float := spec_float.

Definition leb (x y : float) : bool := SFleb x y.

(** The correctly rounded binary64 value of [(-1)^neg * m * 10^e], as
    [float()] computes it from a decimal literal. *)
Definition of_decimal (neg : bool) (m : Z) (e : Z) : float :=
  match m with
  | Z0 => S754_zero neg
  | Zpos p =>
      if 0 <=? e
      then binary_normalize prec emax
             (if neg then - (m * 10 ^ e) else m * 10 ^ e) 0 neg
      else match 10 ^ (- e) with
           | Zpos q =>
               SFdiv prec emax (S754_finite neg p 0) (S754_finite false q 0)
           | _ => S754_nan
           end
  | Zneg _ => S754_nan
  end.

Definition zero : float := S754_zero false.
Definition one : float := of_decimal false 1 0.

Definition is_digit (c : ascii) : bool :=
  let n := N_of_ascii c in ((48 <=? n) && (n <=? 57))%N.

(** [Py_ISSPACE]: the ASCII white space that [float] strips. *)
Definition is_space (c : ascii) : bool :=
  let n := N_of_ascii c in
  (((9 <=? n) && (n <=? 13)) || (n =? 32))%N.

Definition lower (c : ascii) : ascii :=
  let n := N_of_ascii c in
  if ((65 <=? n) && (n <=? 90))%N then ascii_of_N (n + 32) else c.

Definition digit_val (c : ascii) : Z := Z.of_N (N_of_ascii c) - 48.

Fixpoint lstrip (cs : list ascii) : list ascii :=
  match cs with
  | c :: r => if is_space c then lstrip r else cs
  | [] => []
  end.

Definition strip (cs : list ascii) : list ascii :=
  rev (lstrip (rev (lstrip cs))).

(** An underscore is accepted only between two digits, and is then dropped. *)
Fixpoint drop_underscores (prev_digit : bool) (cs : list ascii)
  : option (list ascii) :=
  match cs with
  | [] => Some []
  | c :: r =>
      if Ascii.eqb c "_"
      then match r with
           | d :: _ =>
               if prev_digit && is_digit d
               then drop_underscores false r
               else None
           | [] => None
           end
      else cons c <$> drop_underscores (is_digit c) r
  end.

Fixpoint span_digits (cs : list ascii) : list ascii * list ascii :=
  match cs with
  | c :: r =>
      if is_digit c
      then let '(ds, rest) := span_digits r in (c :: ds, rest)
      else ([], cs)
  | [] => ([], [])
  end.

Definition digits_to_Z (ds : list ascii) : Z :=
  fold_left (fun acc c => 10 * acc + digit_val c) ds 0.

Definition take_sign (cs : list ascii) : bool * list ascii :=
  match cs with
  | c :: r =>
      if Ascii.eqb c "-" then (true, r)
      else if Ascii.eqb c "+" then (false, r)
      else (false, cs)
  | [] => (false, [])
  end.

Definition is_nil {A} (l : list A) : bool :=
  match l with [] => true | _ => false end.

(** [digits [. digits] [e [sign] digits]] with a digit on one side of the
    point at least: the mantissa and the decimal exponent. *)
Definition parse_decimal (cs : list ascii) : option (Z * Z) :=
  let '(ip, r1) := span_digits cs in
  let '(fp, r2) :=
    match r1 with
    | c :: r => if Ascii.eqb c "." then span_digits r else ([], r1)
    | [] => ([], [])
    end in
  if is_nil ip && is_nil fp then None
  else
    let m := digits_to_Z (ip ++ fp) in
    let sh := Z.of_nat (length fp) in
    match r2 with
    | [] => Some (m, - sh)
    | c :: r3 =>
        if Ascii.eqb (lower c) "e"
        then
          let '(eneg, r4) := take_sign r3 in
          let '(ed, r5) := span_digits r4 in
          if is_nil ed || negb (is_nil r5) then None
          else
            let x := digits_to_Z ed in
            Some (m, (if eneg then - x else x) - sh)
        else None
    end.

(** A [str] is kept as its UTF-8 bytes; these are its code points, when the
    bytes are well-formed UTF-8 (shortest form, no surrogate). *)
Definition is_cont (b : N) : bool := ((128 <=? b) && (b <=? 191))%N.

Fixpoint utf8_decode (bs : list N) : option (list N) :=
  match bs with
  | [] => Some []
  | b :: r =>
      if (b <? 128)%N then cons b <$> utf8_decode r
      else if ((194 <=? b) && (b <=? 223))%N then
        match r with
        | b1 :: r1 =>
            if is_cont b1
            then cons ((b - 192) * 64 + (b1 - 128))%N <$> utf8_decode r1
            else None
        | _ => None
        end
      else if ((224 <=? b) && (b <=? 239))%N then
        match r with
        | b1 :: b2 :: r2 =>
            let cp := ((b - 224) * 4096 + (b1 - 128) * 64 + (b2 - 128))%N in
            if is_cont b1 && is_cont b2 && (2048 <=? cp)%N
               && negb ((55296 <=? cp) && (cp <=? 57343))%N
            then cons cp <$> utf8_decode r2
            else None
        | _ => None
        end
      else if ((240 <=? b) && (b <=? 244))%N then
        match r with
        | b1 :: b2 :: b3 :: r3 =>
            let cp := ((b - 240) * 262144 + (b1 - 128) * 4096
                       + (b2 - 128) * 64 + (b3 - 128))%N in
            if is_cont b1 && is_cont b2 && is_cont b3
               && (65536 <=? cp)%N && (cp <=? 1114111)%N
            then cons cp <$> utf8_decode r3
            else None
        | _ => None
        end
      else None
  end.

Definition code_points (s : string) : option (list N) :=
  utf8_decode (map N_of_ascii (list_ascii_of_string s)).

(** The code point of the digit zero of every run of ten decimal digits of
    Unicode 14 ([unicodedata.decimal]). *)
Definition decimal_zeros : list N :=
  [48; 1632; 1776; 1984; 2406; 2534; 2662; 2790; 2918; 3046; 3174; 3302;
   3430; 3558; 3664; 3792; 3872; 4160; 4240; 6112; 6160; 6470; 6608; 6784;
   6800; 6992; 7088; 7232; 7248; 42528; 43216; 43264; 43472; 43504; 43600;
   44016; 65296; 66720; 68912; 69734; 69872; 69942; 70096; 70384; 70736;
   70864; 71248; 71360; 71472; 71904; 72016; 72784; 73040; 73120; 92768;
   92864; 93008; 120782; 120792; 120802; 120812; 120822; 123200; 123632;
   125264; 130032]%N.

(** [Py_UNICODE_TODECIMAL] *)
Definition to_decimal (c : N) : option N :=
  match filter (fun z => (z <=? c) && (c <? z + 10))%N decimal_zeros with
  | z :: _ => Some (c - z)%N
  | [] => None
  end.

(** [Py_UNICODE_ISSPACE] above ASCII. *)
Definition is_unicode_space (c : N) : bool :=
  ((c =? 133) || (c =? 160) || (c =? 5760)
   || ((8192 <=? c) && (c <=? 8202))
   || (c =? 8232) || (c =? 8233) || (c =? 8239) || (c =? 8287)
   || (c =? 12288))%N.

(** [_PyUnicode_TransformDecimalAndSpaceToASCII]: an ASCII string is taken
    as it is; in any other string a character below 127 is kept, white space
    becomes a blank and a decimal digit its ASCII digit.  Another character
    ends the result with a question mark, which no number contains: [None]. *)
Definition transform_char (c : N) : option ascii :=
  if (c <? 127)%N then Some (ascii_of_N c)
  else if is_unicode_space c then Some " "%char
  else (fun d => ascii_of_N (48 + d)) <$> to_decimal c.

Definition to_ascii (cps : list N) : option (list ascii) :=
  if forallb (fun c => (c <? 128)%N) cps
  then Some (map ascii_of_N cps)
  else mapM transform_char cps.

(** What [PyOS_string_to_double] reads: a sign, then an infinity, a NaN or a
    decimal literal, and nothing after it. *)
Definition parse_number (cs : list ascii) : option float :=
  let '(neg, body) := take_sign cs in
  let low := string_of_list_ascii (map lower body) in
  if String.eqb low "inf" || String.eqb low "infinity"
  then Some (S754_infinity neg)
  else if String.eqb low "nan" then Some S754_nan
  else
    '(m, e) ← parse_decimal body;
    Some (of_decimal neg m e).

(** [float(s)] for a [str]: [None] is [ValueError].  Digits and white space
    of all scripts are brought to ASCII, underscores between digits are
    dropped, white space around the number is stripped, and the rest is
    read. *)
Definition of_string (s : string) : option float :=
  cps ← code_points s;
  cs ← to_ascii cps;
  clean ← drop_underscores false cs;
  parse_number (strip clean).

End PyFloat.

(** ** Values, rows and exceptions *)

(** What [json.dumps] accepts and [json.loads] returns. *)
#[local] Unset Elimination Schemes.
Inductive JSON : Type :=
| JNull
| JBool (b : bool)
| JInt (n : Z)
| JFloat (f : PyFloat.float)
| JStr (s : string)
| JArr (items : list JSON)
| JObj (fields : gmap string JSON).
#[local] Set Elimination Schemes.

Abbreviation Timestamp := nat.

(** One entry of a history: [{"role": ..., "content": ...}]. *)
Record Turn : Type := mkTurn { role : string; content : string }.

Inductive Exception : Type :=
| PyException (msg : string)     (* [Exception(msg)] *)
| ClientError (msg : string)     (* raised by the HTTP transport *)
| JSONDecodeError (msg : string) (* [response.json()]: the body is not JSON *)
| ContentTypeError (msg : string) (* [response.json()]: not sent as JSON *)
| BadRequest (msg : string)      (* the messenger refuses a text *)
| IntegrityError (msg : string)  (* [sqlite3.IntegrityError] *)
| KeyError (key : string)
| IndexError
| ValueError.

(** ** [Database] and [SessionManager] (app/api/claude_client.py) *)

Module Database.

Record UserRow : Type := mkUser {
  username : option string;           (* TEXT, NULL for a user without one *)
  created_at : Timestamp;
  settings : gmap string JSON         (* TEXT holding a JSON object *)
}.

Record ConversationRow : Type := mkConversation {
  id : Z;
  user_id : Z;
  user_message : string;
  bot_response : string;
  timestamp : Timestamp
}.

Record SessionRow : Type := mkSession {
  history : list Turn;                (* TEXT holding a JSON array *)
  updated_at : Timestamp
}.

(** The three tables; [conversations_seq] is the AUTOINCREMENT counter of
    [conversations] (the largest id handed out so far). *)
Record DB : Type := mkDB {
  users : gmap Z UserRow;
  conversations : list ConversationRow;
  conversations_seq : Z;
  sessions : gmap Z SessionRow
}.

(** [_initialize_db] on a fresh file. *)
Definition empty : DB := mkDB ∅ [] 0 ∅.

Definition user_exists (uid : Z) (d : DB) : bool :=
  match users d !! uid with Some _ => true | None => false end.

Definition default_model : string := "claude-3-7-sonnet-20250219".
Definition default_temperature : PyFloat.float := PyFloat.of_decimal false 7 (-1).
Definition default_max_tokens : Z := 4000.

Definition default_settings : gmap string JSON :=
  <["model" := JStr default_model]>
    (<["temperature" := JFloat default_temperature]>
       (<["max_tokens" := JInt default_max_tokens]> ∅)).

(** A plain INSERT: the primary key makes it fail on a known [uid]. *)
Definition register_user (now : Timestamp) (uid : Z) (name : option string)
    (d : DB) : Exception + DB :=
  match users d !! uid with
  | Some _ => inl (IntegrityError "UNIQUE constraint failed: users.user_id")
  | None =>
      inr (mkDB (<[uid := mkUser name now default_settings]> (users d))
                (conversations d) (conversations_seq d) (sessions d))
  end.

Definition get_user_settings (uid : Z) (d : DB) : gmap string JSON :=
  match users d !! uid with
  | Some r => settings r
  | None => ∅
  end.

(** Read, set the key, then UPDATE ... WHERE user_id = ?: a row is
    rewritten when there is one, none is created. *)
Definition update_user_setting (uid : Z) (key : string) (value : JSON)
    (d : DB) : DB :=
  let s := <[key := value]> (get_user_settings uid d) in
  mkDB (alter (fun r => mkUser (username r) (created_at r) s) uid (users d))
       (conversations d) (conversations_seq d) (sessions d).

Definition log_conversation (now : Timestamp) (uid : Z)
    (user_msg bot_msg : string) (d : DB) : DB :=
  let n := conversations_seq d + 1 in
  mkDB (users d)
       (conversations d ++ [mkConversation n uid user_msg bot_msg now])
       n (sessions d).

End Database.

Module SessionManager.
Import Database.

Definition get_session (uid : Z) (d : DB) : list Turn :=
  match sessions d !! uid with
  | Some r => history r
  | None => []
  end.

(** The Python slice [l[i:]]: a negative [i] counts from the end, and both
    ends are clamped. *)
Definition slice_from {A} (i : Z) (l : list A) : list A :=
  let n := Z.of_nat (length l) in
  let start := if i <? 0 then Z.max 0 (n + i) else Z.min i n in
  drop (Z.to_nat start) l.

Definition max_messages : Z := 10.

Definition truncate (h : list Turn) : list Turn :=
  if max_messages * 2 <? Z.of_nat (length h)
  then slice_from (- max_messages * 2) h
  else h.

(** INSERT OR REPLACE: the row of [uid] is written whether it was there or
    not. *)
Definition update_session (now : Timestamp) (uid : Z) (h : list Turn)
    (d : DB) : DB :=
  mkDB (users d) (conversations d) (conversations_seq d)
       (<[uid := mkSession (truncate h) now]> (sessions d)).

(** UPDATE ... WHERE user_id = ?: only an existing row is reset. *)
Definition clear_session (now : Timestamp) (uid : Z) (d : DB) : DB :=
  mkDB (users d) (conversations d) (conversations_seq d)
       (alter (fun _ => mkSession [] now) uid (sessions d)).

End SessionManager.

(** ** The remote API as the client sees it *)

Module Http.

(** The request body of [send_message]; [system] is present only when the
    caller gave a non-empty one. *)
Record Payload : Type := mkPayload {
  model : JSON;
  messages : list Turn;
  max_tokens : JSON;
  temperature : JSON;
  system : option string
}.

(** The decoded body of a reply, as far as the bot reads it:
    [content], when the key is there, is a list of blocks, and a block has
    a [text] or not. *)
Record Block : Type := mkBlock { text : option string }.
Record Body : Type := mkBody { content : option (list Block) }.

(** Why [response.json()] raises on a body. *)
Inductive Undecodable : Type :=
| NotJson (msg : string)
| NotSentAsJson (msg : string).

Definition decode_error (f : Undecodable) : Exception :=
  match f with
  | NotJson msg => JSONDecodeError msg
  | NotSentAsJson msg => ContentTypeError msg
  end.

(** A response as [send_message] reads it: the status, the body as text, and
    what decoding the body as JSON gives, a value or a failure. *)
Record Response : Type := mkResponse {
  status : Z;
  raw : string;                (* [await response.text()] *)
  json : Undecodable + Body    (* [await response.json()] *)
}.

(** What [session.post] does with one request: it raises, or a response
    comes back. *)
Inductive Outcome : Type :=
| Raises (e : Exception)
| Returns (r : Response).

End Http.

(** ** The world of a handler, and the monad of its effects *)

(** The texts the bot sends; the constructors stand for the literal (Russian)
    strings and f-strings of main.py. *)
Inductive Text : Type :=
| TxtGreeting                         (* start_command *)
| TxtHelp                             (* help_command *)
| TxtCleared                          (* clear_command *)
| TxtSettings (m t k : JSON)          (* settings_command: the three values *)
| TxtAskModel                         (* set_model without argument *)
| TxtModelChanged (m : string)        (* set_model done *)
| TxtAskTemp                          (* set_temp without argument *)
| TxtTempSet (t : PyFloat.float)      (* set_temp done *)
| TxtTempRange                        (* set_temp: not in 0.0 - 1.0 *)
| TxtTempNotNumber                    (* set_temp: not a number *)
| TxtAnswer (s : string)              (* the model's reply, forwarded *)
| TxtFailure.                         (* handle_message: generic failure *)

Inductive Outgoing : Type :=
| ReplyText (t : Text)                (* update.message.reply_text *)
| ChatAction (action : string).       (* update.message.chat.send_action *)

(** The calls the handlers make on [db] and [session_manager]. *)
Inductive StoreCall : Type :=
| CallUserExists (uid : Z)
| CallRegisterUser (uid : Z) (name : option string)
| CallGetUserSettings (uid : Z)
| CallUpdateUserSetting (uid : Z) (key : string) (value : JSON)
| CallLogConversation (uid : Z) (user_msg bot_msg : string)
| CallGetSession (uid : Z)
| CallUpdateSession (uid : Z) (h : list Turn)
| CallClearSession (uid : Z).

Record World : Type := mkWorld {
  db : Database.DB;
  now : Timestamp;
  (** the server: its answer to a request, given the requests before it *)
  server : list Http.Payload -> Http.Payload -> Http.Outcome;
  requests : list Http.Payload;       (* requests issued so far *)
  outbox : list Outgoing;             (* sent to the chat so far *)
  errors : list Exception;            (* [logger.error] lines *)
  calls : list StoreCall;             (* store calls so far *)
  (** the messenger: whether it refuses to deliver a reply of the model with
      this text (an empty one, one that is too long), and with what error *)
  messenger : string -> option Exception
}.

Definition M (A : Type) : Type := World -> (Exception + A) * World.

#[export] Instance M_ret : MRet M := fun A x w => (inr x, w).
#[export] Instance M_bind : MBind M := fun A B f c w =>
  match c w with
  | (inr x, w') => f x w'
  | (inl e, w') => (inl e, w')
  end.

Definition raise {A} (e : Exception) : M A := fun w => (inl e, w).

(** [try: body except ...: handler]; the handler re-raises what its clause
    does not catch. *)
Definition try_except {A} (body : M A) (handler : Exception -> M A) : M A :=
  fun w =>
    match body w with
    | (inl e, w') => handler e w'
    | r => r
    end.

Definition of_result {A} (r : Exception + A) : M A := fun w => (r, w).

Definition set_db (d : Database.DB) (w : World) : World :=
  mkWorld d (now w) (server w) (requests w) (outbox w) (errors w) (calls w)
          (messenger w).

Definition note_call (c : StoreCall) (w : World) : World :=
  mkWorld (db w) (now w) (server w) (requests w) (outbox w) (errors w)
          (calls w ++ [c]) (messenger w).

Definition note_request (p : Http.Payload) (w : World) : World :=
  mkWorld (db w) (now w) (server w) (requests w ++ [p]) (outbox w) (errors w)
          (calls w) (messenger w).

Definition send (o : Outgoing) : M unit := fun w =>
  (inr (), mkWorld (db w) (now w) (server w) (requests w) (outbox w ++ [o])
                   (errors w) (calls w) (messenger w)).

(** [update.message.reply_text]: the texts of the bot itself are delivered;
    a reply of the model is delivered unless the messenger refuses it, and
    then the call raises. *)
Definition reply_text (t : Text) : M unit :=
  match t with
  | TxtAnswer s =>
      fun w =>
        match messenger w s with
        | Some e => raise e w
        | None => send (ReplyText t) w
        end
  | _ => send (ReplyText t)
  end.

Definition logger_error (e : Exception) : M unit := fun w =>
  (inr (), mkWorld (db w) (now w) (server w) (requests w) (outbox w)
                   (errors w ++ [e]) (calls w) (messenger w)).

Definition db_read {A} (c : StoreCall) (f : Database.DB -> A) : M A :=
  fun w => (inr (f (db w)), note_call c w).

Definition db_write (c : StoreCall)
    (f : Timestamp -> Database.DB -> Database.DB) : M unit :=
  fun w => (inr (), set_db (f (now w) (db w)) (note_call c w)).

Definition db_try_write (c : StoreCall)
    (f : Timestamp -> Database.DB -> Exception + Database.DB) : M unit :=
  fun w =>
    match f (now w) (db w) with
    | inr d => (inr (), set_db d (note_call c w))
    | inl e => (inl e, note_call c w)
    end.

(** ** [ClaudeClient] (app/api/claude_client.py) *)

Module ClaudeClient.
Import Http.

Definition build_payload (msgs : list Turn) (mdl temp maxtok : JSON)
    (sys : option string) : Payload :=
  mkPayload mdl msgs maxtok temp
    (match sys with
     | Some s => if String.eqb s "" then None else Some s
     | None => None
     end).

(** One [session.post]: the request is issued and the server answers. *)
Definition post (p : Payload) : M Response := fun w =>
  match server w (requests w) p with
  | Raises e => (inl e, note_request p w)
  | Returns r => (inr r, note_request p w)
  end.

Definition api_error (r : Response) : Exception :=
  PyException ("API error: " +:+ pretty (status r) +:+ ", " +:+ raw r).

Definition send_message (msgs : list Turn) (mdl temp maxtok : JSON)
    (sys : option string) : M Body :=
  r ← post (build_payload msgs mdl temp maxtok sys);
  if negb (status r =? 200) then raise (api_error r)
  else of_result (match json r with
                  | inr body => inr body
                  | inl fault => inl (decode_error fault)
                  end).

End ClaudeClient.

(** ** The handlers (app/main.py) *)

Module Main.
Import Database SessionManager.

(** What a handler reads of its [update]. *)
Record Update : Type := mkUpdate {
  effective_user_id : Z;
  effective_username : option string;
  message_text : string
}.

(** [d.get(key, fallback)] *)
Definition dict_get (d : gmap string JSON) (key : string) (fallback : JSON)
  : JSON :=
  default fallback (d !! key).

(** [float(s)] as a call that may raise. *)
Definition float (s : string) : M PyFloat.float :=
  of_result (match PyFloat.of_string s with
             | Some f => inr f
             | None => inl ValueError
             end).

Definition start_command (u : Update) : M unit :=
  let user_id := effective_user_id u in
  let username := effective_username u in
  known ← db_read (CallUserExists user_id) (user_exists user_id);
  (if negb known
   then db_try_write (CallRegisterUser user_id username)
          (fun t => register_user t user_id username)
   else mret ());;
  reply_text TxtGreeting.

Definition help_command (u : Update) : M unit := reply_text TxtHelp.

Definition clear_command (u : Update) : M unit :=
  let user_id := effective_user_id u in
  db_write (CallClearSession user_id) (fun t => clear_session t user_id);;
  reply_text TxtCleared.

Definition settings_command (u : Update) : M unit :=
  let user_id := effective_user_id u in
  s ← db_read (CallGetUserSettings user_id) (get_user_settings user_id);
  reply_text (TxtSettings
                (dict_get s "model" (JStr default_model))
                (dict_get s "temperature" (JFloat default_temperature))
                (dict_get s "max_tokens" (JInt default_max_tokens))).

Definition set_model_command (u : Update) (args : list string) : M unit :=
  let user_id := effective_user_id u in
  match args with
  | [] => reply_text TxtAskModel
  | m :: _ =>
      db_write (CallUpdateUserSetting user_id "model" (JStr m))
        (fun _ => update_user_setting user_id "model" (JStr m));;
      reply_text (TxtModelChanged m)
  end.

Definition in_unit_range (t : PyFloat.float) : bool :=
  PyFloat.leb PyFloat.zero t && PyFloat.leb t PyFloat.one.

Definition set_temp_command (u : Update) (args : list string) : M unit :=
  let user_id := effective_user_id u in
  match args with
  | [] => reply_text TxtAskTemp
  | a :: _ =>
      try_except
        (temp ← float a;
         if in_unit_range temp
         then
           db_write (CallUpdateUserSetting user_id "temperature" (JFloat temp))
             (fun _ => update_user_setting user_id "temperature" (JFloat temp));;
           reply_text (TxtTempSet temp)
         else reply_text TxtTempRange)
        (fun e =>
           match e with
           | ValueError => reply_text TxtTempNotNumber
           | _ => raise e
           end)
  end.

(** [response["content"][0]["text"]] *)
Definition first_text (r : Http.Body) : M string :=
  of_result
    (match Http.content r with
     | None => inl (KeyError "content")
     | Some [] => inl IndexError
     | Some (b :: _) =>
         match Http.text b with
         | None => inl (KeyError "text")
         | Some t => inr t
         end
     end).

(** The request that [handle_message] sends for [u] in the world [w]. *)
Definition request_of (u : Update) (d : DB) : Http.Payload :=
  let s := get_user_settings (effective_user_id u) d in
  ClaudeClient.build_payload
    (get_session (effective_user_id u) d ++ [mkTurn "user" (message_text u)])
    (dict_get s "model" (JStr default_model))
    (dict_get s "temperature" (JFloat default_temperature))
    (dict_get s "max_tokens" (JInt default_max_tokens))
    None.

(** Line 152 of main.py reads [except Exception as e:] once the stray
    file name pasted into its keyword is taken out. *)
Definition handle_message (u : Update) : M unit :=
  let user_id := effective_user_id u in
  let user_message := message_text u in
  s ← db_read (CallGetUserSettings user_id) (get_user_settings user_id);
  h ← db_read (CallGetSession user_id) (get_session user_id);
  let h1 := h ++ [mkTurn "user" user_message] in
  send (ChatAction "typing");;
  try_except
    (response ← ClaudeClient.send_message h1
                  (dict_get s "model" (JStr default_model))
                  (dict_get s "temperature" (JFloat default_temperature))
                  (dict_get s "max_tokens" (JInt default_max_tokens))
                  None;
     claude_response ← first_text response;
     let h2 := h1 ++ [mkTurn "assistant" claude_response] in
     db_write (CallUpdateSession user_id h2)
       (fun t => update_session t user_id h2);;
     reply_text (TxtAnswer claude_response);;
     db_write (CallLogConversation user_id user_message claude_response)
       (fun t => log_conversation t user_id user_message claude_response))
    (fun e =>
       logger_error e;;
       reply_text TxtFailure).

End Main.

(** ** States the store can be in *)

Module Reach.
Import Database SessionManager.

(** One statement executed on the store by one of its writing methods. *)
Inductive step : DB -> DB -> Prop :=
| step_register t uid name d d' :
    register_user t uid name d = inr d' -> step d d'
| step_update_setting uid key value d :
    step d (update_user_setting uid key value d)
| step_log t uid um bm d :
    step d (log_conversation t uid um bm d)
| step_update_session t uid h d :
    step d (update_session t uid h d)
| step_clear t uid d :
    step d (clear_session t uid d).

(** The states reached from the fresh file. *)
Inductive reachable : DB -> Prop :=
| reach_empty : reachable Database.empty
| reach_step d d' : reachable d -> step d d' -> reachable d'.

Definition sessions_bounded (d : DB) : Prop :=
  forall uid r, sessions d !! uid = Some r -> (length (history r) <= 20)%nat.

End Reach.

(** ** Worlds the handlers end in, and sample data *)

Module Outcomes.
Import Database SessionManager Main.

(** The world [handle_message] ends in when the exchange raised [e]. *)
Definition after_failure (u : Update) (w : World) (e : Exception) : World :=
  mkWorld (db w) (now w) (server w)
          (requests w ++ [request_of u (db w)])
          (outbox w ++ [ChatAction "typing"; ReplyText TxtFailure])
          (errors w ++ [e])
          (calls w ++ [CallGetUserSettings (effective_user_id u);
                       CallGetSession (effective_user_id u)])
          (messenger w).

(** The world [handle_message] ends in when the model answered [txt] and
    the messenger delivered it. *)
Definition after_success (u : Update) (w : World) (txt : string) : World :=
  let uid := effective_user_id u in
  let h := get_session uid (db w) ++ [mkTurn "user" (message_text u)]
           ++ [mkTurn "assistant" txt] in
  mkWorld (log_conversation (now w) uid (message_text u) txt
             (update_session (now w) uid h (db w)))
          (now w) (server w)
          (requests w ++ [request_of u (db w)])
          (outbox w ++ [ChatAction "typing"; ReplyText (TxtAnswer txt)])
          (errors w)
          (calls w ++ [CallGetUserSettings uid; CallGetSession uid;
                       CallUpdateSession uid h;
                       CallLogConversation uid (message_text u) txt])
          (messenger w).

(** The world [handle_message] ends in when the model answered [txt] and
    the messenger refused it with [e]: the session is saved already, the log
    is not written. *)
Definition after_refusal (u : Update) (w : World) (txt : string)
    (e : Exception) : World :=
  let uid := effective_user_id u in
  let h := get_session uid (db w) ++ [mkTurn "user" (message_text u)]
           ++ [mkTurn "assistant" txt] in
  mkWorld (update_session (now w) uid h (db w))
          (now w) (server w)
          (requests w ++ [request_of u (db w)])
          (outbox w ++ [ChatAction "typing"; ReplyText TxtFailure])
          (errors w ++ [e])
          (calls w ++ [CallGetUserSettings uid; CallGetSession uid;
                       CallUpdateSession uid h])
          (messenger w).

(** The world after one more text was sent to the user. *)
Definition told (t : Text) (w : World) : World :=
  mkWorld (db w) (now w) (server w) (requests w)
          (outbox w ++ [ReplyText t]) (errors w) (calls w) (messenger w).

(** [set_temp] accepts the argument [a] as the temperature [t]: [float(a)]
    is [t], and [0.0 <= t <= 1.0]. *)
Definition accepted (a : string) (t : PyFloat.float) : Prop :=
  PyFloat.of_string a = Some t /\ in_unit_range t = true.

End Outcomes.

Module Samples.
Import Database SessionManager Main.

(** The store after user 7 was registered on a fresh file. *)
Definition db_ann : DB :=
  match register_user 1 7 (Some "ann") Database.empty with
  | inr d => d
  | inl _ => Database.empty
  end.

Definition ann : Update := mkUpdate 7 (Some "ann") "hello".
Definition bob : Update := mkUpdate 8 None "hi".

Definition answers (txt : string) : list Http.Payload -> Http.Payload -> Http.Outcome :=
  fun _ _ =>
    Http.Returns (Http.mkResponse 200 "{...}"
                    (inr (Http.mkBody (Some [Http.mkBlock (Some txt)])))).

Definition overloaded : list Http.Payload -> Http.Payload -> Http.Outcome :=
  fun _ _ =>
    Http.Returns (Http.mkResponse 529 "overloaded"
                    (inl (Http.NotJson "Expecting value"))).


(** A messenger that refuses the empty text and delivers every other. *)
Definition no_empty_text : string -> option Exception :=
  fun s => if String.eqb s "" then Some (BadRequest "Message text is empty")
           else None.

Definition world (d : DB)
    (srv : list Http.Payload -> Http.Payload -> Http.Outcome) : World :=
  mkWorld d 5 srv [] [] [] [] (fun _ => None).

End Samples.

(** ** The bot as a whole: the handler table of [main] and its runs *)

Module Bot.
Import Database SessionManager Main Outcomes.

(** What [main] registers: six commands, and plain text. *)
Inductive Command : Type :=
| Start
| Help
| Clear
| Settings
| SetModel (args : list string)
| SetTemp (args : list string)
| Plain.

Definition dispatch (c : Command) (u : Update) : M unit :=
  match c with
  | Start => start_command u
  | Help => help_command u
  | Clear => clear_command u
  | Settings => settings_command u
  | SetModel args => set_model_command u args
  | SetTemp args => set_temp_command u args
  | Plain => handle_message u
  end.

(** The world at another time, facing a server that may behave otherwise. *)
Definition later (t : Timestamp)
    (srv : list Http.Payload -> Http.Payload -> Http.Outcome) (w : World)
  : World :=
  mkWorld (db w) t srv (requests w) (outbox w) (errors w) (calls w)
          (messenger w).

(** The worlds the bot gets into: it starts on a fresh file, handles one
    update after the other, and between two of them time passes. *)
Inductive reachable : World -> Prop :=
| boot t srv msgr :
    reachable (mkWorld Database.empty t srv [] [] [] [] msgr)
| handled c u w : reachable w -> reachable (snd (dispatch c u w))
| waited t srv w : reachable w -> reachable (later t srv w).

(** What one update of [u] can do to the store. *)
Inductive change (u : Update) (w : World) : DB -> Prop :=
| change_none : change u w (db w)
| change_register d :
    register_user (now w) (effective_user_id u) (effective_username u) (db w)
    = inr d ->
    change u w d
| change_clear : change u w (clear_session (now w) (effective_user_id u) (db w))
| change_model m :
    change u w (update_user_setting (effective_user_id u) "model" (JStr m) (db w))
| change_temp a t :
    accepted a t ->
    change u w (update_user_setting (effective_user_id u) "temperature"
                  (JFloat t) (db w))
| change_exchange txt :
    change u w (db (after_success u w txt))
| change_unlogged txt e :
    change u w (db (after_refusal u w txt e)).

(** The plain messages [texts] of one user, handled one after the other. *)
Definition chat (uid : Z) (name : option string) (texts : list string)
    (w : World) : World :=
  fold_left (fun w' txt => snd (handle_message (mkUpdate uid name txt) w'))
            texts w.

(** A server that answers every request with status 200 and a first block
    of text. *)
Definition always_answers
    (srv : list Http.Payload -> Http.Payload -> Http.Outcome) : Prop :=
  forall reqs p, exists r body txt rest,
    srv reqs p = Http.Returns r
    /\ Http.status r = 200
    /\ Http.json r = inr body
    /\ Http.content body = Some (Http.mkBlock (Some txt) :: rest).

(** The ids of the log are its positions, counted from 1. *)
Definition ids_in_order (d : DB) : Prop :=
  conversations_seq d = Z.of_nat (length (conversations d))
  /\ forall i row, conversations d !! i = Some row -> id row = Z.of_nat i + 1.

(** Every row of [users] has the three keys that registration writes. *)
Definition has_defaults (d : DB) : Prop :=
  forall uid r, users d !! uid = Some r ->
    is_Some (settings r !! "model")
    /\ is_Some (settings r !! "temperature")
    /\ is_Some (settings r !! "max_tokens").

(** A history made of whole exchanges: a user turn, then the assistant's. *)
Inductive exchanges : list Turn -> Prop :=
| exchanges_nil : exchanges []
| exchanges_cons um bm h :
    exchanges h ->
    exchanges (mkTurn "user" um :: mkTurn "assistant" bm :: h).

(** Settings as the commands can make them. *)
Definition well_typed (s : gmap string JSON) : Prop :=
  (exists m, s !! "model" = Some (JStr m))
  /\ (exists t, s !! "temperature" = Some (JFloat t) /\ in_unit_range t = true)
  /\ s !! "max_tokens" = Some (JInt 4000).

(** The model's replies among what was sent to the chat. *)
Fixpoint answers_in (out : list Outgoing) : list string :=
  match out with
  | ReplyText (TxtAnswer s) :: rest => s :: answers_in rest
  | _ :: rest => answers_in rest
  | [] => []
  end.

(** The invariant of the store under the handlers. *)
Definition settled (d : DB) : Prop :=
  (forall uid r, users d !! uid = Some r -> well_typed (settings r))
  /\ (forall uid r, sessions d !! uid = Some r -> exchanges (history r)).

(** The parameters of a request are of the kinds the API takes. *)
Definition params_ok (p : Http.Payload) : Prop :=
  (exists m, Http.model p = JStr m)
  /\ (exists t, Http.temperature p = JFloat t /\ in_unit_range t = true)
  /\ Http.max_tokens p = JInt 4000
  /\ Http.system p = None.

(** The messages of a request: whole exchanges, then the user's new turn. *)
Definition messages_ok (p : Http.Payload) : Prop :=
  exists h um,
    Http.messages p = h ++ [mkTurn "user" um]
    /\ exchanges h
    /\ (length h <= 20)%nat.

End Bot.


Module Runs.
Import Database SessionManager Main Outcomes Bot Samples.

(** The bot after /start of user 7 and one answered message. *)
Definition greeted : World :=
  snd (dispatch Start ann (world Database.empty (answers "hi ann"))).

Definition chatted : World := snd (dispatch Plain ann greeted).

(** A model that answers with the empty text, which the messenger refuses. *)
Definition speechless : World :=
  mkWorld db_ann 5 (answers "") [] [] [] [] no_empty_text.

End Runs.

(** * Properties *)

(** ** [float(str)] on sample literals *)

Example float_abc : PyFloat.of_string "abc" = None.
Proof. reflexivity. Qed.

Example float_1_5 :
  PyFloat.of_string "1.5" = Some (S754_finite false 6755399441055744 (-52)).
Proof. reflexivity. Qed.

Example float_0_7 :
  PyFloat.of_string "0.7" = Some Database.default_temperature
  /\ Database.default_temperature = S754_finite false 6305039478318694 (-53).
Proof. split; reflexivity. Qed.

Example float_rounds_to_one :
  PyFloat.of_string "1.00000000000000000001" = Some PyFloat.one.
Proof. reflexivity. Qed.

Example float_grammar :
  map PyFloat.of_string ["1_"; "_1"; "1__0"; "1._5"; "1e"; "."; ""; "0x10"]
  = [None; None; None; None; None; None; None; None]
  /\ map PyFloat.of_string ["+inf"; "NaN"; "-1e-400"; "1e400"]
     = [Some (S754_infinity false); Some S754_nan; Some (S754_zero true);
        Some (S754_infinity false)].
Proof. split; reflexivity. Qed.

Example float_unicode :
  map PyFloat.of_string ["٠.٥"; "０.５"; "١_٢"; "١e٢"; "　١　"]
  = [Some (S754_finite false 4503599627370496 (-53));
     Some (S754_finite false 4503599627370496 (-53));
     Some (S754_finite false 6755399441055744 (-49));
     Some (S754_finite false 7036874417766400 (-46));
     Some PyFloat.one]
  /\ map PyFloat.of_string ["١٫٥"; "−1"; String (ascii_of_N 28) "1"; "1 1"]
     = [None; None; None; None].
Proof. split; reflexivity. Qed.

Example range_examples :
  map (fun s => Main.in_unit_range <$> PyFloat.of_string s)
      ["0"; "-0.0"; "0.5"; "1"; "1.5"; "-0.1"; "nan"; "inf"]
  = [Some true; Some true; Some true; Some true; Some false; Some false;
     Some false; Some false].
Proof. reflexivity. Qed.

(** ** The session window *)

Module SessionFacts.
Import Database SessionManager Reach.

Lemma slice_from_neg {A} (k : nat) (l : list A) :
  slice_from (- Z.of_nat (S k)) l = drop (length l - S k) l.
Proof.
  unfold slice_from.
  destruct (Z.ltb_spec (- Z.of_nat (S k)) 0) as [_ | Hge]; [| lia].
  f_equal. lia.
Qed.

Lemma truncate_drop (h : list Turn) : truncate h = drop (length h - 20) h.
Proof.
  unfold truncate, max_messages.
  destruct (Z.ltb_spec (10 * 2) (Z.of_nat (length h))) as [Hlong | Hshort].
  - change (- (10) * 2) with (- Z.of_nat 20). apply slice_from_neg.
  - replace (length h - 20)%nat with 0%nat by lia. reflexivity.
Qed.

Lemma truncate_length (h : list Turn) :
  length (truncate h) = Nat.min (length h) 20.
Proof. rewrite truncate_drop, length_drop. lia. Qed.

Lemma truncate_suffix (h : list Turn) :
  take (length h - 20) h ++ truncate h = h.
Proof. rewrite truncate_drop. apply take_drop. Qed.

Lemma get_update_session t uid h d :
  get_session uid (update_session t uid h d) = truncate h.
Proof.
  unfold get_session, update_session; simpl.
  by rewrite lookup_insert_eq.
Qed.

Lemma get_update_session_ne t uid uid' h d :
  uid <> uid' ->
  get_session uid' (update_session t uid h d) = get_session uid' d.
Proof.
  intros Hne. unfold get_session, update_session; simpl.
  by rewrite lookup_insert_ne.
Qed.

Lemma step_sessions_bounded d d' :
  step d d' -> sessions_bounded d -> sessions_bounded d'.
Proof.
  intros Hstep Hb.
  destruct Hstep as [t uid name d d' Hreg | uid key value d | t uid um bm d
                    | t uid h d | t uid d]; intros u r; simpl.
  - unfold register_user in Hreg.
    destruct (users d !! uid); [discriminate |].
    injection Hreg as <-. apply Hb.
  - apply Hb.
  - apply Hb.
  - destruct (decide (uid = u)) as [-> | Hne].
    + rewrite lookup_insert_eq. intros [= <-]; simpl.
      rewrite truncate_length. lia.
    + rewrite lookup_insert_ne by done. apply Hb.
  - rewrite lookup_alter.
    destruct (decide (uid = u)) as [-> | Hne].
    + destruct (sessions d !! u); simpl; [| done].
      intros [= <-]; simpl. lia.
    + apply Hb.
Qed.

Lemma reachable_sessions_bounded d : reachable d -> sessions_bounded d.
Proof.
  induction 1 as [| d d' _ IH Hstep].
  - intros uid r. unfold Database.empty; simpl.
    rewrite lookup_empty. discriminate.
  - by apply (step_sessions_bounded d d').
Qed.

Lemma get_session_bounded uid d :
  sessions_bounded d -> (length (get_session uid d) <= 20)%nat.
Proof.
  intros Hb. unfold get_session.
  destruct (sessions d !! uid) as [r |] eqn:Hr; simpl; [| lia].
  by apply (Hb uid).
Qed.

(** C1. Saving a history and loading it back gives the last
    [min (length x) 20] entries of [x]: a suffix of [x] of at most 20
    entries, [x] itself when it has at most 20; and in no state the store
    reaches does a session hold more than 20 entries. *)
Theorem save_then_load (t : Timestamp) (uid : Z) (x : list Turn) (d : DB) :
  let stored := get_session uid (update_session t uid x d) in
  stored = drop (length x - Nat.min (length x) (Z.to_nat (2 * max_messages))) x
  /\ length stored = Nat.min (length x) 20
  /\ take (length x - 20) x ++ stored = x
  /\ ((length x <= 20)%nat -> stored = x)
  /\ (forall d' u, reachable d' -> (length (get_session u d') <= 20)%nat).
Proof.
  cbv zeta. rewrite get_update_session.
  change (Z.to_nat (2 * max_messages)) with 20%nat.
  repeat split.
  - rewrite truncate_drop. f_equal. lia.
  - apply truncate_length.
  - apply truncate_suffix.
  - intros Hshort. rewrite truncate_drop.
    replace (length x - 20)%nat with 0%nat by lia. reflexivity.
  - intros d' u Hr.
    apply get_session_bounded, reachable_sessions_bounded, Hr.
Qed.

End SessionFacts.

(** ** The store: users, settings, sessions and the audit log *)

Module StoreFacts.
Import Database SessionManager Reach.

Lemma alter_absent {V} (f : V -> V) (k : Z) (m : gmap Z V) :
  m !! k = None -> alter f k m = m.
Proof.
  intros Hk. apply map_eq. intros j. rewrite lookup_alter.
  destruct (decide (k = j)) as [<- | Hne]; [by rewrite Hk | done].
Qed.


Lemma get_after_update_setting uid key value d :
  is_Some (users d !! uid) ->
  get_user_settings uid (update_user_setting uid key value d)
  = <[key := value]> (get_user_settings uid d).
Proof.
  intros [r Hr]. unfold update_user_setting, get_user_settings; simpl.
  rewrite lookup_alter. destruct (decide (uid = uid)); [| done].
  by rewrite Hr.
Qed.

Lemma update_setting_other_user uid uid' key value d :
  uid <> uid' ->
  users (update_user_setting uid key value d) !! uid' = users d !! uid'.
Proof.
  intros Hne. unfold update_user_setting; simpl.
  rewrite lookup_alter. by destruct (decide (uid = uid')).
Qed.

Lemma get_clear_session t uid d : get_session uid (clear_session t uid d) = [].
Proof.
  unfold get_session, clear_session; simpl.
  rewrite lookup_alter. destruct (decide (uid = uid)); [| done].
  by destruct (sessions d !! uid).
Qed.

Lemma step_log_prefix d d' :
  step d d' -> conversations d `prefix_of` conversations d'.
Proof.
  intros [t uid name d0 d1 Hreg | uid key value d0 | t uid um bm d0
         | t uid h d0 | t uid d0]; simpl; try done.
  - unfold register_user in Hreg.
    destruct (users d0 !! uid); [discriminate |]. by injection Hreg as <-.
  - by apply prefix_app_r.
Qed.

(** C7. Whatever the store holds for a user, a row or none, the history
    loaded after [clear_session] is empty. *)
Theorem clear_then_load (t : Timestamp) (uid : Z) (d : DB) :
  get_session uid (clear_session t uid d) = [].
Proof. apply get_clear_session. Qed.

(** C8. [log_conversation] adds one row at the end of the log and leaves
    the rows before it, the users and the sessions as they were;
    [clear_session] leaves the log, the users and every other user's session
    as they were; and no statement of the store ever rewrites or removes a
    logged row. *)
Theorem audit_log_frame (t : Timestamp) (uid : Z) (um bm : string) (d : DB) :
  (exists row,
      conversations (log_conversation t uid um bm d) = conversations d ++ [row]
      /\ user_id row = uid /\ user_message row = um /\ bot_response row = bm)
  /\ (forall i row, conversations d !! i = Some row ->
                    conversations (log_conversation t uid um bm d) !! i = Some row)
  /\ users (log_conversation t uid um bm d) = users d
  /\ sessions (log_conversation t uid um bm d) = sessions d
  /\ conversations (clear_session t uid d) = conversations d
  /\ conversations_seq (clear_session t uid d) = conversations_seq d
  /\ users (clear_session t uid d) = users d
  /\ (forall other, other <> uid ->
                    sessions (clear_session t uid d) !! other = sessions d !! other)
  /\ (forall d1 d2, step d1 d2 -> conversations d1 `prefix_of` conversations d2).
Proof.
  repeat split.
  - eexists. simpl. repeat split; reflexivity.
  - intros i row Hi. simpl. by apply lookup_app_l_Some.
  - intros other Hne. simpl. rewrite lookup_alter.
    by destruct (decide (uid = other)).
  - apply step_log_prefix.
Qed.


End StoreFacts.


(** ** The model client and the message handler *)

Module ExchangeFacts.
Import Database SessionManager Main Outcomes.

#[local] Arguments default_temperature : simpl never.
#[local] Arguments default_model : simpl never.
#[local] Arguments default_max_tokens : simpl never.
#[local] Arguments get_session : simpl never.
#[local] Arguments get_user_settings : simpl never.
#[local] Arguments update_session : simpl never.
#[local] Arguments log_conversation : simpl never.
#[local] Arguments ClaudeClient.build_payload : simpl never.
#[local] Arguments ClaudeClient.api_error : simpl never.
#[local] Arguments dict_get : simpl never.

Ltac run_handler :=
  unfold handle_message, first_text, ClaudeClient.send_message,
    ClaudeClient.post, try_except, db_read, db_write, reply_text, send,
    logger_error, raise, of_result, note_request, note_call, set_db,
    mbind, M_bind, mret, M_ret;
  cbn.



(** A reply with status 200 whose body does not decode ends as a failed
    call does, with the decoder's error. *)
Lemma handle_message_undecodable u w r fault :
  server w (requests w) (request_of u (db w)) = Http.Returns r ->
  Http.status r = 200 ->
  Http.json r = inl fault ->
  handle_message u w = (inr (), after_failure u w (Http.decode_error fault)).
Proof.
  intros Hsrv H200 Hjson. run_handler. fold (request_of u (db w)).
  rewrite Hsrv; cbn. rewrite H200; cbn. rewrite Hjson; cbn.
  unfold after_failure. by rewrite <- ?app_assoc.
Qed.

(** A reply with status 200 from which [content[0].text] cannot be read
    ends in the same way. *)
Lemma handle_message_unreadable u w r body :
  server w (requests w) (request_of u (db w)) = Http.Returns r ->
  Http.status r = 200 ->
  Http.json r = inr body ->
  (forall txt rest,
      Http.content body <> Some (Http.mkBlock (Some txt) :: rest)) ->
  exists e, handle_message u w = (inr (), after_failure u w e).
Proof.
  intros Hsrv H200 Hjson Hbad. run_handler. fold (request_of u (db w)).
  rewrite Hsrv; cbn. rewrite H200; cbn. rewrite Hjson; cbn.
  destruct (Http.content body) as [[| [[txt |]] rest] |]; cbn;
    try (eexists; unfold after_failure; by rewrite <- ?app_assoc).
  by destruct (Hbad txt rest).
Qed.

Lemma handle_message_success u w r body txt rest :
  server w (requests w) (request_of u (db w)) = Http.Returns r ->
  Http.status r = 200 ->
  Http.json r = inr body ->
  Http.content body = Some (Http.mkBlock (Some txt) :: rest) ->
  messenger w txt = None ->
  handle_message u w = (inr (), after_success u w txt).
Proof.
  intros Hsrv H200 Hjson Hbody Hsent. run_handler. fold (request_of u (db w)).
  rewrite Hsrv; cbn. rewrite H200; cbn. rewrite Hjson; cbn.
  rewrite Hbody; cbn. rewrite Hsent; cbn.
  unfold after_success; cbn.
  by rewrite <- ?app_assoc.
Qed.

(** The model answered and the messenger refuses the answer: the session is
    saved by then, the log is not written, and the user gets the failure
    text. *)
Lemma handle_message_undelivered u w r body txt rest e :
  server w (requests w) (request_of u (db w)) = Http.Returns r ->
  Http.status r = 200 ->
  Http.json r = inr body ->
  Http.content body = Some (Http.mkBlock (Some txt) :: rest) ->
  messenger w txt = Some e ->
  handle_message u w = (inr (), after_refusal u w txt e).
Proof.
  intros Hsrv H200 Hjson Hbody Hsent. run_handler. fold (request_of u (db w)).
  rewrite Hsrv; cbn. rewrite H200; cbn. rewrite Hjson; cbn.
  rewrite Hbody; cbn. rewrite Hsent; cbn.
  unfold after_refusal; cbn.
  by rewrite <- ?app_assoc.
Qed.

Lemma handle_message_requests u w :
  requests (snd (handle_message u w)) = requests w ++ [request_of u (db w)].
Proof.
  run_handler. fold (request_of u (db w)).
  destruct (server w (requests w) (request_of u (db w))) as [e | r]; cbn;
    [done |].
  destruct (Http.status r =? 200); cbn; [| done].
  destruct (Http.json r) as [fault | body]; cbn; [done |].
  destruct (Http.content body) as [[| [[txt |]] rest] |]; cbn; try done.
  by destruct (messenger w txt).
Qed.



(** C5. The request that [handle_message] sends carries, for each of
    model, temperature and max_tokens, the stored value when the user's
    settings have the key and the default otherwise (the default model name,
    0.7, 4000); and for a user with a row, reading the settings after
    [update_user_setting uid k v] gives the old map with [k] set to [v]:
    [k] maps to [v], every other key to what it mapped to. *)
Theorem settings_defaults_and_update (u : Update) (w : World)
    (uid : Z) (k : string) (v : JSON) (d : DB) :
  let s := get_user_settings (effective_user_id u) (db w) in
  let p := request_of u (db w) in
  requests (snd (handle_message u w)) = requests w ++ [p]
  /\ Http.model p = default (JStr "claude-3-7-sonnet-20250219") (s !! "model")
  /\ Http.temperature p
     = default (JFloat (S754_finite false 6305039478318694 (-53)))
               (s !! "temperature")
  /\ Http.max_tokens p = default (JInt 4000) (s !! "max_tokens")
  /\ (s = ∅ ->
      Http.model p = JStr "claude-3-7-sonnet-20250219"
      /\ Http.temperature p = JFloat (S754_finite false 6305039478318694 (-53))
      /\ Http.max_tokens p = JInt 4000)
  /\ (is_Some (users d !! uid) ->
      let s' := get_user_settings uid (update_user_setting uid k v d) in
      s' = <[k := v]> (get_user_settings uid d)
      /\ s' !! k = Some v
      /\ (forall k', k' <> k -> s' !! k' = get_user_settings uid d !! k')).
Proof.
  cbv zeta. split_and!.
  - apply handle_message_requests.
  - reflexivity.
  - reflexivity.
  - reflexivity.
  - intros Hs. unfold request_of. rewrite Hs. by cbn.
  - intros Hrow. cbv zeta. split_and!.
    + by apply StoreFacts.get_after_update_setting.
    + rewrite StoreFacts.get_after_update_setting by done.
      apply lookup_insert_eq.
    + intros k' Hne. rewrite StoreFacts.get_after_update_setting by done.
      by apply lookup_insert_ne.
Qed.

End ExchangeFacts.

(** ** The commands *)

Module CommandFacts.
Import Database SessionManager Main Outcomes.

#[local] Arguments update_user_setting : simpl never.
#[local] Arguments get_user_settings : simpl never.
#[local] Arguments PyFloat.of_string : simpl never.
#[local] Arguments in_unit_range : simpl never.

Ltac run_command :=
  unfold start_command, set_model_command, set_temp_command, float,
    try_except, db_read, db_write, db_try_write, reply_text, send, raise,
    of_result, note_call, set_db, mbind, M_bind, mret, M_ret;
  cbn.

(** [set_temp] with an argument, by the three ways it can go. *)
Lemma set_temp_accepted u a rest w t :
  accepted a t ->
  set_temp_command u (a :: rest) w
  = (inr (),
     mkWorld (update_user_setting (effective_user_id u) "temperature"
                (JFloat t) (db w))
             (now w) (server w) (requests w)
             (outbox w ++ [ReplyText (TxtTempSet t)]) (errors w)
             (calls w ++ [CallUpdateUserSetting (effective_user_id u)
                            "temperature" (JFloat t)]) (messenger w)).
Proof.
  intros [Hparse Hrange]. run_command. rewrite Hparse; cbn.
  by rewrite Hrange.
Qed.

Lemma set_temp_out_of_range u a rest w t :
  PyFloat.of_string a = Some t -> in_unit_range t = false ->
  set_temp_command u (a :: rest) w = (inr (), told TxtTempRange w).
Proof.
  intros Hparse Hrange. run_command. rewrite Hparse; cbn.
  by rewrite Hrange.
Qed.

Lemma set_temp_not_a_number u a rest w :
  PyFloat.of_string a = None ->
  set_temp_command u (a :: rest) w = (inr (), told TxtTempNotNumber w).
Proof. intros Hparse. run_command. by rewrite Hparse. Qed.

Lemma set_temp_no_argument u w :
  set_temp_command u [] w = (inr (), told TxtAskTemp w).
Proof. reflexivity. Qed.




(** C4 (as the code has it). [register_user] on a known id does not return:
    the INSERT violates the primary key and raises [IntegrityError]; no
    statement took effect, so the store, and with it the user's name,
    creation time and settings, is what it was.  It is [start_command] that
    makes a second /start harmless: for a known user it does not call
    [register_user], returns normally and leaves the store as it was. *)
Theorem register_known_user (t : Timestamp) (name : option string)
    (u : Update) (w : World) :
  let uid := effective_user_id u in
  let again := db_try_write (CallRegisterUser uid name)
                 (fun t' => register_user t' uid name) w in
  is_Some (users (db w) !! uid) ->
  (exists msg, register_user t uid name (db w) = inl (IntegrityError msg))
  /\ (exists msg, fst again = inl (IntegrityError msg))
  /\ db (snd again) = db w
  /\ start_command u w
     = (inr (),
        mkWorld (db w) (now w) (server w) (requests w)
                (outbox w ++ [ReplyText TxtGreeting]) (errors w)
                (calls w ++ [CallUserExists uid]) (messenger w)).
Proof.
  cbv zeta. intros [row Hrow]. split_and!.
  - unfold register_user. rewrite Hrow. by eexists.
  - unfold db_try_write, register_user. rewrite Hrow. by eexists.
  - unfold db_try_write, register_user. by rewrite Hrow.
  - run_command. unfold user_exists. by rewrite Hrow.
Qed.

End CommandFacts.

(** ** The properties on sample data *)

Module OnSamples.
Import Database SessionManager Main Outcomes Samples.

(** C4 (as the specification has it) fails on the code: registering user 7 a
    second time raises, it is not a silent no-op. *)
Lemma register_twice_raises :
  user_exists 7 db_ann = true
  /\ register_user 2 7 (Some "ann") db_ann
     = inl (IntegrityError "UNIQUE constraint failed: users.user_id")
  /\ ~ (exists d, register_user 2 7 (Some "ann") db_ann = inr d).
Proof.
  split_and!; [reflexivity | reflexivity |].
  intros [d Hd]. discriminate Hd.
Qed.

Lemma save_then_load_witness :
  (length [mkTurn "user" "hi"] <= 20)%nat
  /\ get_session 7 (update_session 0 7 [mkTurn "user" "hi"] db_ann)
     = [mkTurn "user" "hi"]
  /\ Reach.reachable Database.empty
  /\ (length (get_session 7 Database.empty) <= 20)%nat.
Proof.
  destruct (SessionFacts.save_then_load 0 7 [mkTurn "user" "hi"] db_ann)
    as (_ & _ & _ & Hshort & Hreach).
  split; [simpl; lia |].
  split; [apply Hshort; simpl; lia |].
  split; [constructor |].
  apply Hreach. constructor.
Defined.




Lemma register_known_user_witness :
  is_Some (users db_ann !! 7)
  /\ fst (start_command ann (world db_ann overloaded)) = inr ()
  /\ db (snd (start_command ann (world db_ann overloaded))) = db_ann.
Proof.
  assert (Hrow : is_Some (users (db (world db_ann overloaded))
                            !! effective_user_id ann)).
  { eexists. reflexivity. }
  destruct (CommandFacts.register_known_user 2 (Some "ann") ann
              (world db_ann overloaded) Hrow) as (_ & _ & _ & Hstart).
  split; [exact Hrow |]. by rewrite Hstart.
Defined.

Lemma settings_defaults_and_update_witness :
  get_user_settings 8 db_ann = ∅
  /\ Http.model (request_of bob db_ann) = JStr "claude-3-7-sonnet-20250219"
  /\ is_Some (users db_ann !! 7)
  /\ get_user_settings 7 (update_user_setting 7 "model" (JStr "m") db_ann)
       !! "model" = Some (JStr "m")
  /\ "max_tokens" <> "model"
  /\ get_user_settings 7 (update_user_setting 7 "model" (JStr "m") db_ann)
       !! "max_tokens" = get_user_settings 7 db_ann !! "max_tokens".
Proof.
  destruct (ExchangeFacts.settings_defaults_and_update bob
              (world db_ann overloaded) 7 "model" (JStr "m") db_ann)
    as (_ & _ & _ & _ & Hdefaults & Hupdate).
  assert (Hrow : is_Some (users db_ann !! 7)) by (eexists; reflexivity).
  destruct (Hupdate Hrow) as (_ & Hk & Hothers).
  split; [reflexivity |].
  split; [apply Hdefaults; reflexivity |].
  split; [exact Hrow |].
  split; [exact Hk |].
  split; [discriminate |].
  apply Hothers. discriminate.
Defined.


Lemma audit_log_frame_witness :
  conversations db_ann !! 0%nat = None
  /\ (8 : Z) <> 7
  /\ sessions (clear_session 3 7 (update_session 2 8 [mkTurn "user" "hi"] db_ann))
       !! (8 : Z)
     = sessions (update_session 2 8 [mkTurn "user" "hi"] db_ann) !! (8 : Z)
  /\ Reach.step db_ann (log_conversation 3 7 "hello" "hi ann" db_ann)
  /\ conversations db_ann
       `prefix_of` conversations (log_conversation 3 7 "hello" "hi ann" db_ann)
  /\ conversations (log_conversation 4 7 "more" "sure"
                      (log_conversation 3 7 "hello" "hi ann" db_ann)) !! 0%nat
     = Some (mkConversation 1 7 "hello" "hi ann" 3).
Proof.
  destruct (StoreFacts.audit_log_frame 3 7 "hello" "hi ann"
              (update_session 2 8 [mkTurn "user" "hi"] db_ann))
    as (_ & _ & _ & _ & _ & _ & _ & Hothers & Hprefix).
  destruct (StoreFacts.audit_log_frame 4 7 "more" "sure"
              (log_conversation 3 7 "hello" "hi ann" db_ann))
    as (_ & Hrows & _).
  assert (Hne : (8 : Z) <> 7) by discriminate.
  assert (Hstep : Reach.step db_ann (log_conversation 3 7 "hello" "hi ann" db_ann))
    by constructor.
  split; [reflexivity |].
  split; [exact Hne |].
  split; [exact (Hothers 8 Hne) |].
  split; [exact Hstep |].
  split; [exact (Hprefix _ _ Hstep) |].
  apply Hrows. reflexivity.
Defined.



End OnSamples.

(** ** More on the store *)

Module StoreMore.
Import Database SessionManager Reach.
Import Bot (ids_in_order, has_defaults).

Lemma db_eq (d1 d2 : DB) :
  users d1 = users d2 -> conversations d1 = conversations d2 ->
  conversations_seq d1 = conversations_seq d2 -> sessions d1 = sessions d2 ->
  d1 = d2.
Proof. destruct d1, d2; simpl; by intros -> -> -> ->. Qed.

Lemma users_after_update uid key value d j :
  users (update_user_setting uid key value d) !! j
  = if decide (uid = j)
    then (fun r => mkUser (username r) (created_at r)
                     (<[key := value]> (settings r))) <$> users d !! j
    else users d !! j.
Proof.
  unfold update_user_setting, get_user_settings; simpl.
  rewrite lookup_alter. destruct (decide (uid = j)) as [<- | Hne]; [| done].
  by destruct (users d !! uid).
Qed.

(** X1. Settings are written last-write-wins: a second write of a key
    replaces the first, and writes of two different keys give the same store
    in either order. *)
Theorem setting_writes_compose (uid : Z) (k k' : string) (v v' : JSON) (d : DB) :
  update_user_setting uid k v' (update_user_setting uid k v d)
  = update_user_setting uid k v' d
  /\ (k <> k' ->
      update_user_setting uid k v (update_user_setting uid k' v' d)
      = update_user_setting uid k' v' (update_user_setting uid k v d)).
Proof.
  split.
  - apply db_eq; try done. apply map_eq. intros j.
    rewrite !users_after_update.
    destruct (decide (uid = j)) as [<- | Hne]; [| done].
    destruct (users d !! uid) as [r |]; simpl; [| done].
    by rewrite insert_insert_eq.
  - intros Hne. apply db_eq; try done. apply map_eq. intros j.
    rewrite !users_after_update.
    destruct (decide (uid = j)) as [<- | Hj]; [| done].
    destruct (users d !! uid) as [r |]; simpl; [| done].
    by rewrite insert_insert_ne.
Qed.

(** X2. Writing a setting of a user with a row changes the settings of that
    row and nothing else: the name and the creation time of the row, the rows
    of all other users, the sessions and the log stay as they were. *)
Theorem setting_write_frame (uid : Z) (key : string) (value : JSON) (d : DB)
    (r : UserRow) :
  users d !! uid = Some r ->
  users (update_user_setting uid key value d) !! uid
  = Some (mkUser (username r) (created_at r) (<[key := value]> (settings r)))
  /\ (forall other, other <> uid ->
        users (update_user_setting uid key value d) !! other = users d !! other)
  /\ sessions (update_user_setting uid key value d) = sessions d
  /\ conversations (update_user_setting uid key value d) = conversations d.
Proof.
  intros Hr. split_and!; try done.
  - rewrite users_after_update. destruct (decide (uid = uid)); [| done].
    by rewrite Hr.
  - intros other Hne. rewrite users_after_update.
    by destruct (decide (uid = other)).
Qed.

(** X3. [register_user] succeeds exactly for an id that [user_exists] does
    not know.  The row it writes has the given name, the current time and the
    default settings; afterwards the user exists, and the rows of the other
    users, the sessions and the log are as before. *)
Theorem register_round_trip (t : Timestamp) (uid : Z) (name : option string)
    (d : DB) :
  ((exists d', register_user t uid name d = inr d') <-> user_exists uid d = false)
  /\ (forall d', register_user t uid name d = inr d' ->
        users d' !! uid = Some (mkUser name t default_settings)
        /\ user_exists uid d' = true
        /\ (forall other, other <> uid ->
              users d' !! other = users d !! other
              /\ user_exists other d' = user_exists other d)
        /\ sessions d' = sessions d
        /\ conversations d' = conversations d).
Proof.
  unfold register_user, user_exists.
  destruct (users d !! uid) as [r |] eqn:Hr.
  - split; [split; [intros [d' Hd] |]; discriminate |].
    intros d' Hd. discriminate.
  - split; [split; [done | by eexists] |].
    intros d' [= <-]; simpl. split_and!; try done.
    + by rewrite lookup_insert_eq.
    + by rewrite lookup_insert_eq.
    + intros other Hne. by rewrite lookup_insert_ne.
Qed.

(** X4. Saving a session writes the row of that user only: the sessions of
    all other users, the users table and the log are as before; and the
    timestamp of the row is the time of the save. *)
Theorem save_frame (t : Timestamp) (uid : Z) (h : list Turn) (d : DB) :
  sessions (update_session t uid h d) !! uid = Some (mkSession (truncate h) t)
  /\ (forall other, other <> uid ->
        get_session other (update_session t uid h d) = get_session other d)
  /\ users (update_session t uid h d) = users d
  /\ conversations (update_session t uid h d) = conversations d.
Proof.
  split_and!; try done.
  - simpl. by rewrite lookup_insert_eq.
  - intros other Hne. by apply SessionFacts.get_update_session_ne.
Qed.

Lemma truncate_short (h : list Turn) :
  (length h <= 20)%nat -> truncate h = h.
Proof.
  intros Hshort. rewrite SessionFacts.truncate_drop.
  by replace (length h - 20)%nat with 0%nat by lia.
Qed.

(** X5. Truncation is idempotent; and in every state the store reaches,
    saving the history that was just loaded does not change what is loaded
    next. *)
Theorem save_loaded_history (t : Timestamp) (uid : Z) (h : list Turn) (d : DB) :
  truncate (truncate h) = truncate h
  /\ (reachable d ->
      get_session uid (update_session t uid (get_session uid d) d)
      = get_session uid d).
Proof.
  split.
  - apply truncate_short. rewrite SessionFacts.truncate_length. lia.
  - intros Hreach. rewrite SessionFacts.get_update_session.
    apply truncate_short, SessionFacts.get_session_bounded,
      SessionFacts.reachable_sessions_bounded, Hreach.
Qed.

(** X6. [clear_session] never creates a row: for a user without a session
    the store is left exactly as it was, and in general the set of users that
    have a session row is the same before and after. *)
Theorem clear_creates_no_row (t : Timestamp) (uid : Z) (d : DB) :
  (sessions d !! uid = None -> clear_session t uid d = d)
  /\ (forall other, is_Some (sessions (clear_session t uid d) !! other)
                    <-> is_Some (sessions d !! other))
  /\ (forall row, sessions d !! uid = Some row ->
        sessions (clear_session t uid d) !! uid = Some (mkSession [] t)).
Proof.
  split_and!.
  - intros Hnone. apply db_eq; try done; simpl.
    by apply StoreFacts.alter_absent.
  - intros other. simpl. rewrite lookup_alter.
    destruct (decide (uid = other)) as [<- | Hne]; [| done].
    destruct (sessions d !! uid); simpl; split; intros [x Hx]; by eauto.
  - intros row Hrow. simpl. rewrite lookup_alter_eq. by rewrite Hrow.
Qed.

Lemma step_ids_in_order d d' : step d d' -> ids_in_order d -> ids_in_order d'.
Proof.
  intros Hstep [Hseq Hids].
  destruct Hstep as [t uid name d d' Hreg | uid key value d | t uid um bm d
                    | t uid h d | t uid d]; try (by split).
  - unfold register_user in Hreg.
    destruct (users d !! uid); [discriminate |]. injection Hreg as <-.
    by split.
  - split; simpl.
    + rewrite length_app; simpl. lia.
    + intros i row Hi.
      destruct (Nat.lt_ge_cases i (length (conversations d))) as [Hlt | Hge].
      * rewrite lookup_app_l in Hi by done. by apply Hids.
      * rewrite lookup_app_r in Hi by done.
        destruct (i - length (conversations d))%nat as [| n] eqn:Hn;
          simpl in Hi; [| by destruct n].
        injection Hi as <-; simpl. lia.
Qed.

Lemma reachable_ids_in_order d : reachable d -> ids_in_order d.
Proof.
  induction 1 as [| d d' _ IH Hstep].
  - split; [done |]. intros i row Hi. simpl in Hi. by destruct i.
  - by apply (step_ids_in_order d d').
Qed.

(** X7. In every state the store reaches, the rows of the log carry the ids
    1, 2, 3, ... in the order they were written: the id of a row is its
    position, the counter is the number of rows, and no two rows share an
    id. *)
Theorem log_ids_in_order (d : DB) :
  reachable d ->
  conversations_seq d = Z.of_nat (length (conversations d))
  /\ (forall i row, conversations d !! i = Some row -> id row = Z.of_nat i + 1)
  /\ (forall i j ri rj,
        conversations d !! i = Some ri -> conversations d !! j = Some rj ->
        id ri = id rj -> i = j).
Proof.
  intros Hreach. destruct (reachable_ids_in_order d Hreach) as [Hseq Hids].
  split_and!; [done | done |].
  intros i j ri rj Hi Hj Heq.
  apply Hids in Hi. apply Hids in Hj. lia.
Qed.

Lemma step_has_defaults d d' : step d d' -> has_defaults d -> has_defaults d'.
Proof.
  intros Hstep Hd.
  destruct Hstep as [t uid name d d' Hreg | uid key value d | t uid um bm d
                    | t uid h d | t uid d]; try done.
  - unfold register_user in Hreg.
    destruct (users d !! uid) eqn:Hu; [discriminate |]. injection Hreg as <-.
    intros j r; simpl. destruct (decide (uid = j)) as [<- | Hne].
    + rewrite lookup_insert_eq. intros [= <-]; simpl.
      split_and!; by eexists.
    + rewrite lookup_insert_ne by done. apply Hd.
  - intros j r. rewrite users_after_update.
    destruct (decide (uid = j)) as [<- | Hne]; [| apply Hd].
    destruct (users d !! uid) as [r0 |] eqn:Hr0; simpl; [| done].
    intros [= <-]; simpl. destruct (Hd uid r0 Hr0) as (Hm & Ht & Hk).
    split_and!; apply lookup_insert_is_Some';  by right.
Qed.

(** X8. In every state the store reaches, every registered user has a
    stored value for each of model, temperature and max_tokens: whatever
    settings are written later, none of the three keys written at
    registration is ever lost. *)
Theorem defaults_stay_present (d : DB) (uid : Z) (r : UserRow) :
  reachable d -> users d !! uid = Some r ->
  is_Some (get_user_settings uid d !! "model")
  /\ is_Some (get_user_settings uid d !! "temperature")
  /\ is_Some (get_user_settings uid d !! "max_tokens").
Proof.
  intros Hreach Hr. unfold get_user_settings. rewrite Hr.
  revert uid r Hr. change (has_defaults d).
  induction Hreach as [| d d' _ IH Hstep].
  - intros uid r Hr. unfold Database.empty in Hr; simpl in Hr.
    by rewrite lookup_empty in Hr.
  - by apply (step_has_defaults d d').
Qed.

End StoreMore.

(** ** More on the handlers *)

Module HandlerMore.
Import Database SessionManager Main Outcomes Bot.

#[local] Arguments default_temperature : simpl never.
#[local] Arguments default_model : simpl never.
#[local] Arguments default_max_tokens : simpl never.
#[local] Arguments get_session : simpl never.
#[local] Arguments get_user_settings : simpl never.
#[local] Arguments update_session : simpl never.
#[local] Arguments update_user_setting : simpl never.
#[local] Arguments clear_session : simpl never.
#[local] Arguments log_conversation : simpl never.
#[local] Arguments ClaudeClient.build_payload : simpl never.
#[local] Arguments ClaudeClient.api_error : simpl never.
#[local] Arguments dict_get : simpl never.
#[local] Arguments PyFloat.of_string : simpl never.
#[local] Arguments in_unit_range : simpl never.

Lemma handle_message_raises u w e :
  server w (requests w) (request_of u (db w)) = Http.Raises e ->
  handle_message u w = (inr (), after_failure u w e).
Proof.
  intros Hsrv. ExchangeFacts.run_handler. fold (request_of u (db w)).
  rewrite Hsrv; cbn. unfold after_failure. by rewrite <- ?app_assoc.
Qed.

Lemma handle_message_refused u w r :
  server w (requests w) (request_of u (db w)) = Http.Returns r ->
  Http.status r <> 200 ->
  handle_message u w = (inr (), after_failure u w (ClaudeClient.api_error r)).
Proof.
  intros Hsrv Hne. ExchangeFacts.run_handler. fold (request_of u (db w)).
  rewrite Hsrv; cbn.
  destruct (Z.eqb_spec (Http.status r) 200) as [H200 | _]; [done |]. cbn.
  unfold after_failure. by rewrite <- ?app_assoc.
Qed.

(** [handle_message] ends in one of three ways. *)
Lemma handle_message_cases u w :
  (exists e, handle_message u w = (inr (), after_failure u w e))
  \/ (exists txt, messenger w txt = None
                  /\ handle_message u w = (inr (), after_success u w txt))
  \/ (exists txt e, messenger w txt = Some e
                    /\ handle_message u w = (inr (), after_refusal u w txt e)).
Proof.
  destruct (server w (requests w) (request_of u (db w))) as [e | r] eqn:Hsrv.
  - left. exists e. by apply handle_message_raises.
  - destruct (Z.eq_dec (Http.status r) 200) as [H200 | Hne];
      [| left; eexists; by apply handle_message_refused].
    destruct (Http.json r) as [fault | body] eqn:Hjson.
    { left. eexists.
      by apply (ExchangeFacts.handle_message_undecodable u w r fault). }
    destruct (Http.content body) as [[| [[txt |]] rest] |] eqn:Hc.
    + left. apply (ExchangeFacts.handle_message_unreadable u w r body);
        try done.
      intros txt rest. by rewrite Hc.
    + destruct (messenger w txt) as [e |] eqn:Hsent.
      * right; right. exists txt, e. split; [done |].
        by apply (ExchangeFacts.handle_message_undelivered u w r body txt rest).
      * right; left. exists txt. split; [done |].
        by apply (ExchangeFacts.handle_message_success u w r body txt rest).
    + left. apply (ExchangeFacts.handle_message_unreadable u w r body);
        try done.
      intros txt rest'. by rewrite Hc.
    + left. apply (ExchangeFacts.handle_message_unreadable u w r body);
        try done.
      intros txt rest. by rewrite Hc.
Qed.

Lemma start_command_known u w :
  user_exists (effective_user_id u) (db w) = true ->
  start_command u w
  = (inr (),
     mkWorld (db w) (now w) (server w) (requests w)
             (outbox w ++ [ReplyText TxtGreeting]) (errors w)
             (calls w ++ [CallUserExists (effective_user_id u)]) (messenger w)).
Proof. intros Hk. CommandFacts.run_command. by rewrite Hk. Qed.

Lemma start_command_new u w :
  user_exists (effective_user_id u) (db w) = false ->
  exists d,
    register_user (now w) (effective_user_id u) (effective_username u) (db w)
    = inr d
    /\ start_command u w
       = (inr (),
          mkWorld d (now w) (server w) (requests w)
                  (outbox w ++ [ReplyText TxtGreeting]) (errors w)
                  (calls w ++ [CallUserExists (effective_user_id u);
                               CallRegisterUser (effective_user_id u)
                                 (effective_username u)]) (messenger w)).
Proof.
  intros Hnew. CommandFacts.run_command. rewrite Hnew; cbn.
  unfold user_exists in Hnew. unfold register_user.
  destruct (users (db w) !! effective_user_id u); [discriminate |].
  eexists. split; [reflexivity |]. cbn. by rewrite <- ?app_assoc.
Qed.

Lemma set_temp_cases u args w :
  (exists a t, accepted a t
     /\ db (snd (set_temp_command u args w))
        = update_user_setting (effective_user_id u) "temperature" (JFloat t) (db w)
     /\ exists txt, set_temp_command u args w
          = (inr (), mkWorld (update_user_setting (effective_user_id u)
                                "temperature" (JFloat t) (db w))
                       (now w) (server w) (requests w)
                       (outbox w ++ [ReplyText txt]) (errors w)
                       (calls w ++ [CallUpdateUserSetting (effective_user_id u)
                                      "temperature" (JFloat t)]) (messenger w)))
  \/ (exists txt, set_temp_command u args w = (inr (), told txt w)).
Proof.
  destruct args as [| a rest].
  - right. by exists TxtAskTemp.
  - destruct (PyFloat.of_string a) as [t |] eqn:Hp.
    + destruct (in_unit_range t) eqn:Hr.
      * left. exists a, t. assert (Ha : accepted a t) by done.
        rewrite (CommandFacts.set_temp_accepted u a rest w t Ha).
        split; [done |]. split; [done |]. by eexists.
      * right. exists TxtTempRange.
        by apply (CommandFacts.set_temp_out_of_range u a rest w t).
    + right. exists TxtTempNotNumber.
      by apply CommandFacts.set_temp_not_a_number.
Qed.

(** What each handler does to the store is one of the changes of [change]. *)
Lemma dispatch_change c u w : change u w (db (snd (dispatch c u w))).
Proof.
  destruct c as [| | | | args | args |]; simpl.
  - destruct (user_exists (effective_user_id u) (db w)) eqn:Hk.
    + rewrite start_command_known by done. cbn. apply change_none.
    + destruct (start_command_new u w Hk) as (d & Hreg & ->). cbn.
      by apply change_register.
  - cbn. apply change_none.
  - cbn. apply change_clear.
  - cbn. apply change_none.
  - destruct args as [| m rest]; cbn; [apply change_none | apply change_model].
  - destruct (set_temp_cases u args w) as [(a & t & Ha & Hdb & _) | [txt ->]].
    + rewrite Hdb. by apply (change_temp u w a t).
    + cbn. apply change_none.
  - destruct (handle_message_cases u w)
      as [[e ->] | [(txt & _ & ->) | (txt & e & _ & ->)]].
    + cbn. apply change_none.
    + apply change_exchange.
    + apply change_unlogged.
Qed.

(** X9. [handle_message] never lets an exception out, and it ends in one of
    three ways.  The exchange failed: the store is untouched, one error is
    logged and the user gets the failure text.  The model answered and the
    answer was delivered: the session and the log are both written and no
    error is logged.  The model answered and the messenger refused the
    answer: the session is written, the log is not, the messenger's error is
    logged and the user gets the failure text.  In every case the user is
    sent exactly the typing action and one text. *)
Theorem handle_message_outcomes (u : Update) (w : World) :
  let uid := effective_user_id u in
  let w' := snd (handle_message u w) in
  let saved txt :=
    update_session (now w) uid
      (get_session uid (db w)
       ++ [mkTurn "user" (message_text u); mkTurn "assistant" txt])
      (db w) in
  fst (handle_message u w) = inr ()
  /\ ((db w' = db w
       /\ (exists e, errors w' = errors w ++ [e])
       /\ outbox w' = outbox w ++ [ChatAction "typing"; ReplyText TxtFailure])
      \/ (exists txt,
            messenger w txt = None
            /\ db w' = log_conversation (now w) uid (message_text u) txt (saved txt)
            /\ errors w' = errors w
            /\ outbox w'
               = outbox w ++ [ChatAction "typing"; ReplyText (TxtAnswer txt)])
      \/ (exists txt e,
            messenger w txt = Some e
            /\ db w' = saved txt
            /\ errors w' = errors w ++ [e]
            /\ outbox w'
               = outbox w ++ [ChatAction "typing"; ReplyText TxtFailure])).
Proof.
  cbv zeta.
  destruct (handle_message_cases u w)
    as [[e ->] | [(txt & Hsent & ->) | (txt & e & Hsent & ->)]]; cbn.
  - split; [done |]. left. split_and!; [done | by exists e | done].
  - split; [done |]. right; left. by exists txt.
  - split; [done |]. right; right. by exists txt, e.
Qed.

Lemma truncate_keeps_tail (h tail : list Turn) :
  (length tail <= 20)%nat ->
  truncate (h ++ tail) = drop (length (h ++ tail) - 20) h ++ tail.
Proof.
  intros Hshort. rewrite SessionFacts.truncate_drop.
  rewrite drop_app_le; [done |]. rewrite length_app. lia.
Qed.

(** X10. When the server answers 200 with a body that decodes and has a
    first block of text, the stored session becomes the old history with the
    user's turn and the assistant's turn appended, cut to its last 20
    entries; whatever was cut, the two new turns are its last two entries;
    the users table and the sessions of the other users are untouched.  The
    log gets exactly one new row, with the user's text and the reply, when
    the messenger delivers the reply; when it refuses it, the log stays as
    it was although the session is saved. *)
Theorem answered_message_is_stored (u : Update) (w : World) (r : Http.Response)
    (body : Http.Body) (txt : string) (rest : list Http.Block) :
  let uid := effective_user_id u in
  let d' := db (snd (handle_message u w)) in
  let turns := [mkTurn "user" (message_text u); mkTurn "assistant" txt] in
  server w (requests w) (request_of u (db w)) = Http.Returns r ->
  Http.status r = 200 ->
  Http.json r = inr body ->
  Http.content body = Some (Http.mkBlock (Some txt) :: rest) ->
  get_session uid d' = truncate (get_session uid (db w) ++ turns)
  /\ (exists older, get_session uid d' = older ++ turns)
  /\ users d' = users (db w)
  /\ (forall other, other <> uid ->
        get_session other d' = get_session other (db w))
  /\ (messenger w txt = None ->
      conversations d'
      = conversations (db w)
        ++ [mkConversation (conversations_seq (db w) + 1) uid (message_text u)
              txt (now w)])
  /\ (forall e, messenger w txt = Some e ->
        conversations d' = conversations (db w)
        /\ errors (snd (handle_message u w)) = errors w ++ [e]).
Proof.
  cbv zeta. intros Hsrv H200 Hjson Hbody.
  assert (Hsession :
            get_session (effective_user_id u) (db (snd (handle_message u w)))
            = truncate (get_session (effective_user_id u) (db w)
                        ++ [mkTurn "user" (message_text u);
                            mkTurn "assistant" txt])
            /\ users (db (snd (handle_message u w))) = users (db w)
            /\ (forall other, other <> effective_user_id u ->
                  get_session other (db (snd (handle_message u w)))
                  = get_session other (db w))).
  { destruct (messenger w txt) as [e |] eqn:Hsent.
    - rewrite (ExchangeFacts.handle_message_undelivered u w r body txt rest e)
        by done.
      unfold after_refusal; cbn.
      rewrite SessionFacts.get_update_session.
      split_and!; try done.
      intros other Hne. by apply SessionFacts.get_update_session_ne.
    - rewrite (ExchangeFacts.handle_message_success u w r body txt rest)
        by done.
      unfold after_success; cbn.
      change (get_session ?x (log_conversation ?t ?a ?b ?c ?d))
        with (get_session x d).
      rewrite SessionFacts.get_update_session.
      split_and!; try done.
      intros other Hne.
      change (get_session ?x (log_conversation ?t ?a ?b ?c ?d))
        with (get_session x d).
      by apply SessionFacts.get_update_session_ne. }
  destruct Hsession as (Hsess & Husers & Hothers).
  split_and!; try done.
  - rewrite Hsess, truncate_keeps_tail by (simpl; lia). by eexists.
  - intros Hsent.
    by rewrite (ExchangeFacts.handle_message_success u w r body txt rest).
  - intros e Hsent.
    by rewrite (ExchangeFacts.handle_message_undelivered u w r body txt rest e).
Qed.

(** X11. The line logged for the operators is the exception itself: what the
    transport raised when the request did not get through, and
    [Exception("API error: <status>, <body>")] with the status and the raw
    body of the response when the status was not 200. *)
Theorem failure_is_logged (u : Update) (w : World) :
  (forall e, server w (requests w) (request_of u (db w)) = Http.Raises e ->
             errors (snd (handle_message u w)) = errors w ++ [e])
  /\ (forall r, server w (requests w) (request_of u (db w)) = Http.Returns r ->
                Http.status r <> 200 ->
                errors (snd (handle_message u w))
                = errors w ++ [PyException ("API error: " +:+ pretty (Http.status r)
                                            +:+ ", " +:+ Http.raw r)]).
Proof.
  split.
  - intros e Hsrv. by rewrite (handle_message_raises u w e).
  - intros r Hsrv Hne. by rewrite (handle_message_refused u w r).
Qed.

Lemma user_exists_update j uid key value d :
  user_exists j (update_user_setting uid key value d) = user_exists j d.
Proof.
  unfold user_exists. rewrite StoreMore.users_after_update.
  destruct (decide (uid = j)); [| done]. by destruct (users d !! j).
Qed.

Lemma settings_update_other uid key value d other :
  other <> uid ->
  get_user_settings other (update_user_setting uid key value d)
  = get_user_settings other d.
Proof.
  intros Hne. unfold get_user_settings.
  rewrite StoreMore.users_after_update. by destruct (decide (uid = other)).
Qed.

Lemma change_other u w d other :
  change u w d -> other <> effective_user_id u ->
  get_session other d = get_session other (db w)
  /\ get_user_settings other d = get_user_settings other (db w)
  /\ user_exists other d = user_exists other (db w).
Proof.
  intros Hch Hne.
  destruct Hch as [| d Hreg | | m | a t Ha | txt | txt e].
  - done.
  - unfold register_user in Hreg.
    destruct (users (db w) !! effective_user_id u); [discriminate |].
    injection Hreg as <-.
    unfold get_session, get_user_settings, user_exists; simpl.
    by rewrite lookup_insert_ne.
  - unfold get_session, clear_session; simpl.
    by rewrite lookup_alter_ne.
  - split_and!; [done | by apply settings_update_other
                | apply user_exists_update].
  - split_and!; [done | by apply settings_update_other
                | apply user_exists_update].
  - unfold after_success; cbn. split_and!; [| done | done].
    change (get_session ?x (log_conversation ?t0 ?a0 ?b0 ?c0 ?d0))
      with (get_session x d0).
    by apply SessionFacts.get_update_session_ne.
  - unfold after_refusal; cbn. split_and!; [| done | done].
    by apply SessionFacts.get_update_session_ne.
Qed.

(** X12. Users do not share state: whatever update of one user the bot
    handles, with whatever command, every other user's session, settings and
    registration are afterwards what they were. *)
Theorem other_users_untouched (c : Command) (u : Update) (w : World) (other : Z) :
  other <> effective_user_id u ->
  get_session other (db (snd (dispatch c u w))) = get_session other (db w)
  /\ get_user_settings other (db (snd (dispatch c u w)))
     = get_user_settings other (db w)
  /\ user_exists other (db (snd (dispatch c u w))) = user_exists other (db w).
Proof. intros Hne. apply (change_other u w); [apply dispatch_change | done]. Qed.

(** X13. Only /start registers: after any other command or a plain message
    the registered users are the same as before, so chatting or changing
    settings never creates a user; and no handler ever removes one. *)
Theorem only_start_registers (c : Command) (u : Update) (w : World) (uid : Z) :
  (c <> Start ->
   user_exists uid (db (snd (dispatch c u w))) = user_exists uid (db w))
  /\ (user_exists uid (db w) = true ->
      user_exists uid (db (snd (dispatch c u w))) = true)
  /\ user_exists (effective_user_id u) (db (snd (dispatch Start u w))) = true.
Proof.
  assert (Hstart : user_exists (effective_user_id u)
                     (db (snd (dispatch Start u w))) = true).
  { simpl. destruct (user_exists (effective_user_id u) (db w)) eqn:Hk.
    - by rewrite start_command_known.
    - destruct (start_command_new u w Hk) as (d & Hreg & ->); cbn.
      unfold register_user in Hreg.
      destruct (users (db w) !! effective_user_id u); [discriminate |].
      injection Hreg as <-. unfold user_exists; simpl.
      by rewrite lookup_insert_eq. }
  assert (Hrest : c <> Start ->
            user_exists uid (db (snd (dispatch c u w))) = user_exists uid (db w)).
  { intros Hc. destruct c as [| | | | args | args |]; simpl; try done.
    - destruct args as [| m rest]; [done |]. cbn. apply user_exists_update.
    - destruct (set_temp_cases u args w) as [(a & t & Ha & -> & _) | [txt ->]];
        [apply user_exists_update | done].
    - by destruct (handle_message_cases u w)
        as [[e ->] | [(txt & _ & ->) | (txt & e & _ & ->)]]. }
  split_and!; [done | | done].
  intros Hk.
  assert (Hcases : c = Start \/ c <> Start)
    by (destruct c; (by left) || (by right)).
  destruct Hcases as [-> | Hc]; [| by rewrite Hrest].
  destruct (decide (uid = effective_user_id u)) as [-> | Hne]; [done |].
  destruct (change_other u w _ uid (dispatch_change Start u w) Hne)
    as (_ & _ & ->).
  done.
Qed.

Lemma start_command_registers u w :
  fst (start_command u w) = inr ()
  /\ user_exists (effective_user_id u) (db (snd (start_command u w))) = true
  /\ now (snd (start_command u w)) = now w.
Proof.
  destruct (user_exists (effective_user_id u) (db w)) eqn:Hk.
  - by rewrite start_command_known.
  - destruct (start_command_new u w Hk) as (d & Hreg & ->); cbn.
    split_and!; [done | | done].
    unfold register_user in Hreg.
    destruct (users (db w) !! effective_user_id u); [discriminate |].
    injection Hreg as <-. unfold user_exists; simpl.
    by rewrite lookup_insert_eq.
Qed.

(** X14. /start never fails and is idempotent on the store: after it the
    sender is registered, and any later /start of the same user, at whatever
    time and under whatever user name, leaves the store exactly as the first
    one left it.  In particular a changed user name is never written. *)
Theorem start_is_idempotent (u u' : Update) (w : World) (t : Timestamp)
    (srv : list Http.Payload -> Http.Payload -> Http.Outcome) :
  let w1 := snd (start_command u w) in
  effective_user_id u' = effective_user_id u ->
  fst (start_command u w) = inr ()
  /\ user_exists (effective_user_id u) (db w1) = true
  /\ fst (start_command u' (later t srv w1)) = inr ()
  /\ db (snd (start_command u' (later t srv w1))) = db w1.
Proof.
  cbv zeta. intros Hsame.
  destruct (start_command_registers u w) as (Hok & Hex & _).
  split_and!; [done | done | |].
  - rewrite start_command_known; [done |]. by rewrite Hsame.
  - rewrite start_command_known; [done |]. by rewrite Hsame.
Qed.

(** X15. After /clear the model is sent nothing of the earlier conversation:
    the request of the user's next message holds that message alone. *)
Theorem cleared_history_is_not_sent (u u' : Update) (w : World) :
  let w1 := snd (clear_command u w) in
  effective_user_id u' = effective_user_id u ->
  fst (clear_command u w) = inr ()
  /\ Http.messages (request_of u' (db w1)) = [mkTurn "user" (message_text u')]
  /\ requests (snd (handle_message u' w1))
     = requests w ++ [request_of u' (db w1)].
Proof.
  cbv zeta. intros Hsame. split_and!.
  - done.
  - unfold request_of, ClaudeClient.build_payload, clear_command, db_write,
      reply_text, send, set_db, note_call, mbind, M_bind.
    rewrite Hsame. cbn. by rewrite StoreFacts.get_clear_session.
  - by rewrite ExchangeFacts.handle_message_requests.
Qed.

Lemma request_after_update u d key value :
  is_Some (users d !! effective_user_id u) ->
  let s := get_user_settings (effective_user_id u) d in
  request_of u (update_user_setting (effective_user_id u) key value d)
  = ClaudeClient.build_payload
      (get_session (effective_user_id u) d ++ [mkTurn "user" (message_text u)])
      (dict_get (<[key := value]> s) "model" (JStr default_model))
      (dict_get (<[key := value]> s) "temperature" (JFloat default_temperature))
      (dict_get (<[key := value]> s) "max_tokens" (JInt default_max_tokens))
      None.
Proof.
  intros Hrow. cbv zeta. unfold request_of.
  by rewrite StoreFacts.get_after_update_setting.
Qed.

(** X16. For a registered user the settings commands take effect on the next
    request: after /set_model m the request carries the model m, after an
    accepted /set_temp the temperature t, and in both cases the other two
    parameters and the messages are what they would have been. *)
Theorem chosen_settings_are_sent (u : Update) (w : World) (m a : string)
    (rest : list string) (t : PyFloat.float) :
  let p := request_of u (db w) in
  let pm := request_of u (db (snd (set_model_command u (m :: rest) w))) in
  let pt := request_of u (db (snd (set_temp_command u (a :: rest) w))) in
  is_Some (users (db w) !! effective_user_id u) ->
  (Http.model pm = JStr m
   /\ Http.temperature pm = Http.temperature p
   /\ Http.max_tokens pm = Http.max_tokens p
   /\ Http.messages pm = Http.messages p)
  /\ (accepted a t ->
      Http.temperature pt = JFloat t
      /\ Http.model pt = Http.model p
      /\ Http.max_tokens pt = Http.max_tokens p
      /\ Http.messages pt = Http.messages p).
Proof.
  cbv zeta. intros Hrow. split.
  - CommandFacts.run_command. rewrite request_after_update by done.
    unfold request_of, ClaudeClient.build_payload, dict_get; cbn.
    rewrite lookup_insert_eq. by rewrite !lookup_insert_ne.
  - intros Ha. rewrite (CommandFacts.set_temp_accepted u a rest w t Ha); cbn.
    rewrite request_after_update by done.
    unfold request_of, ClaudeClient.build_payload, dict_get; cbn.
    rewrite lookup_insert_eq. by rewrite !lookup_insert_ne.
Qed.


(** X18. A temperature that /set_temp accepts is a finite number that is
    not negative: NaN, the infinities and every negative number are turned
    down, whatever string produced them; a zero of either sign goes
    through. *)
Theorem accepted_temperature_is_finite (a : string) (t : PyFloat.float) :
  (accepted a t ->
   match t with
   | S754_zero _ | S754_finite false _ _ => True
   | _ => False
   end)
  /\ in_unit_range S754_nan = false
  /\ (forall s, in_unit_range (S754_infinity s) = false)
  /\ (forall m e, in_unit_range (S754_finite true m e) = false)
  /\ (forall s, in_unit_range (S754_zero s) = true).
Proof.
  split_and!.
  - intros [_ Hr]. destruct t as [s | s | | [|] m e]; try done.
    by destruct s.
  - done.
  - by intros [|].
  - done.
  - by intros [|].
Qed.

End HandlerMore.


(** ** Runs of the bot *)

Module RunFacts.
Import Database SessionManager Main Outcomes Bot.

Lemma exchanges_app h um bm :
  exchanges h -> exchanges (h ++ [mkTurn "user" um; mkTurn "assistant" bm]).
Proof.
  induction 1 as [| um' bm' h _ IH]; simpl.
  - apply exchanges_cons, exchanges_nil.
  - by apply exchanges_cons.
Qed.

Lemma exchanges_length h : exchanges h -> exists k, length h = (2 * k)%nat.
Proof.
  induction 1 as [| um bm h _ [k Hk]].
  - by exists 0%nat.
  - exists (S k). simpl. lia.
Qed.

Lemma exchanges_drop h k : exchanges h -> exchanges (drop (2 * k) h).
Proof.
  intros Hh. revert k. induction Hh as [| um bm h Hh IH]; intros k.
  - rewrite drop_nil. apply exchanges_nil.
  - destruct k as [| k]; [by apply exchanges_cons |].
    replace (2 * S k)%nat with (S (S (2 * k))) by lia. simpl. apply IH.
Qed.

Lemma exchanges_truncate h : exchanges h -> exchanges (truncate h).
Proof.
  intros Hh. rewrite SessionFacts.truncate_drop.
  destruct (exchanges_length h Hh) as [k Hk]. rewrite Hk.
  replace (2 * k - 20)%nat with (2 * (k - 10))%nat by lia.
  by apply exchanges_drop.
Qed.

Lemma exchanges_get_session uid d : settled d -> exchanges (get_session uid d).
Proof.
  intros [_ Hs]. unfold get_session.
  destruct (sessions d !! uid) as [r |] eqn:Hr; [by apply (Hs uid) |].
  apply exchanges_nil.
Qed.

Lemma well_typed_defaults : well_typed default_settings.
Proof.
  split_and!.
  - by eexists.
  - eexists. by split.
  - done.
Qed.

Lemma well_typed_model s m : well_typed s -> well_typed (<["model" := JStr m]> s).
Proof.
  intros (Hm & Ht & Hk). split_and!.
  - exists m. apply lookup_insert_eq.
  - by rewrite lookup_insert_ne.
  - by rewrite lookup_insert_ne.
Qed.

Lemma well_typed_temperature s t :
  in_unit_range t = true -> well_typed s ->
  well_typed (<["temperature" := JFloat t]> s).
Proof.
  intros Hr (Hm & Ht & Hk). split_and!.
  - by rewrite lookup_insert_ne.
  - exists t. split; [apply lookup_insert_eq | done].
  - by rewrite lookup_insert_ne.
Qed.

Lemma settled_update u w key value :
  (forall s, well_typed s -> well_typed (<[key := value]> s)) ->
  settled (db w) ->
  settled (update_user_setting (effective_user_id u) key value (db w)).
Proof.
  intros Hkeep [Hu Hs]. split; [| done].
  intros uid r. rewrite StoreMore.users_after_update.
  destruct (decide (effective_user_id u = uid)) as [<- | Hne]; [| apply Hu].
  destruct (users (db w) !! effective_user_id u) as [r0 |] eqn:Hr0; [| done].
  simpl. intros [= <-]; simpl. apply Hkeep.
  apply (Hu (effective_user_id u) r0 Hr0).
Qed.

Lemma change_settled u w d : change u w d -> settled (db w) -> settled d.
Proof.
  intros Hch Hinv. pose proof Hinv as [Hu Hs].
  destruct Hch as [| d Hreg | | m | a t [_ Hr] | txt | txt e].
  - done.
  - unfold register_user in Hreg.
    destruct (users (db w) !! effective_user_id u); [discriminate |].
    injection Hreg as <-. split; [| done].
    intros uid r; simpl.
    destruct (decide (effective_user_id u = uid)) as [<- | Hne].
    + rewrite lookup_insert_eq. intros [= <-]. apply well_typed_defaults.
    + rewrite lookup_insert_ne by done. apply Hu.
  - split; [done |]. intros uid r; simpl. rewrite lookup_alter.
    destruct (decide (effective_user_id u = uid)) as [<- | Hne]; [| apply Hs].
    destruct (sessions (db w) !! effective_user_id u); [| done].
    simpl. intros [= <-]. apply exchanges_nil.
  - apply settled_update; [| done]. intros s. apply well_typed_model.
  - apply settled_update; [| done]. intros s. by apply well_typed_temperature.
  - unfold after_success; cbn. split; [done |].
    intros uid r; simpl.
    destruct (decide (effective_user_id u = uid)) as [<- | Hne].
    + rewrite lookup_insert_eq. intros [= <-]; simpl.
      apply exchanges_truncate.
      apply (exchanges_app _ (message_text u) txt).
      by apply exchanges_get_session.
    + rewrite lookup_insert_ne by done. apply Hs.
  - unfold after_refusal; cbn. split; [done |].
    intros uid r; simpl.
    destruct (decide (effective_user_id u = uid)) as [<- | Hne].
    + rewrite lookup_insert_eq. intros [= <-]; simpl.
      apply exchanges_truncate.
      apply (exchanges_app _ (message_text u) txt).
      by apply exchanges_get_session.
    + rewrite lookup_insert_ne by done. apply Hs.
Qed.

Lemma change_reach u w d :
  change u w d -> Reach.reachable (db w) -> Reach.reachable d.
Proof.
  intros Hch Hreach.
  destruct Hch as [| d Hreg | | m | a t _ | txt | txt e].
  - done.
  - eapply Reach.reach_step; [exact Hreach |].
    by eapply Reach.step_register.
  - eapply Reach.reach_step; [exact Hreach | apply Reach.step_clear].
  - eapply Reach.reach_step; [exact Hreach | apply Reach.step_update_setting].
  - eapply Reach.reach_step; [exact Hreach | apply Reach.step_update_setting].
  - unfold after_success; cbn.
    eapply Reach.reach_step; [| apply Reach.step_log].
    eapply Reach.reach_step; [exact Hreach | apply Reach.step_update_session].
  - unfold after_refusal; cbn.
    eapply Reach.reach_step; [exact Hreach | apply Reach.step_update_session].
Qed.

(** The store of a world the bot gets into. *)
Lemma reachable_store w :
  reachable w -> Reach.reachable (db w) /\ settled (db w).
Proof.
  induction 1 as [t srv msgr | c u w _ [IHr IHs] | t srv w _ IH].
  - split; [apply Reach.reach_empty |].
    split; intros uid r Hr; simpl in Hr; by rewrite lookup_empty in Hr.
  - pose proof (HandlerMore.dispatch_change c u w) as Hch.
    split; [by apply (change_reach u w) | by apply (change_settled u w)].
  - done.
Qed.

Lemma settings_typed_or_empty uid d :
  settled d ->
  well_typed (get_user_settings uid d) \/ get_user_settings uid d = ∅.
Proof.
  intros [Hu _]. unfold get_user_settings.
  destruct (users d !! uid) as [r |] eqn:Hr; [left; by apply (Hu uid) | by right].
Qed.

Lemma request_params_ok u d : settled d -> params_ok (request_of u d).
Proof.
  intros Hd. unfold params_ok, request_of, ClaudeClient.build_payload, dict_get.
  simpl.
  destruct (settings_typed_or_empty (effective_user_id u) d Hd)
    as [([m Hm] & (t & Ht & Hr) & Hk) | ->].
  - rewrite Hm, Ht, Hk; simpl. split_and!; [by exists m | by exists t | done | done].
  - rewrite !lookup_empty; simpl.
    split_and!; [by eexists | eexists; by split | done | done].
Qed.

Lemma request_messages_ok u d :
  settled d -> Reach.sessions_bounded d -> messages_ok (request_of u d).
Proof.
  intros Hd Hb. exists (get_session (effective_user_id u) d), (message_text u).
  split_and!; [done | by apply exchanges_get_session
              | by apply SessionFacts.get_session_bounded].
Qed.

Lemma non_answer_text_quiet out t :
  (forall s, t <> TxtAnswer s) ->
  answers_in (out ++ [ReplyText t]) = answers_in out.
Proof.
  intros Ht. induction out as [| [[] |] out IH]; simpl; try done.
  - destruct t; try done. by destruct (Ht s).
  - by rewrite IH.
Qed.

Lemma answers_in_app out1 out2 :
  answers_in (out1 ++ out2) = answers_in out1 ++ answers_in out2.
Proof.
  induction out1 as [| [[] |] out1 IH]; simpl; try done.
  by rewrite IH.
Qed.

(** What one update does to the requests, the replies and the log. *)
Lemma dispatch_traffic c u w :
  let w' := snd (dispatch c u w) in
  (requests w' = requests w
   \/ requests w' = requests w ++ [request_of u (db w)])
  /\ ((answers_in (outbox w') = answers_in (outbox w)
       /\ conversations (db w') = conversations (db w))
      \/ (exists txt row,
            answers_in (outbox w') = answers_in (outbox w) ++ [txt]
            /\ conversations (db w') = conversations (db w) ++ [row]
            /\ bot_response row = txt)).
Proof.
  cbv zeta.
  set (P := fun w' : World =>
    (requests w' = requests w
     \/ requests w' = requests w ++ [request_of u (db w)])
    /\ ((answers_in (outbox w') = answers_in (outbox w)
         /\ conversations (db w') = conversations (db w))
        \/ (exists txt row,
              answers_in (outbox w') = answers_in (outbox w) ++ [txt]
              /\ conversations (db w') = conversations (db w) ++ [row]
              /\ bot_response row = txt))).
  change (P (snd (dispatch c u w))).
  assert (Hquiet : forall t d cs,
             (forall s, t <> TxtAnswer s) ->
             conversations d = conversations (db w) ->
             P (mkWorld d (now w) (server w) (requests w)
                  (outbox w ++ [ReplyText t]) (errors w) cs (messenger w))).
  { intros t d cs Ht Hd. subst P. cbn. split; [by left | left].
    split; [by apply non_answer_text_quiet | done]. }
  destruct c as [| | | | args | args |]; simpl.
  - destruct (user_exists (effective_user_id u) (db w)) eqn:Hk.
    + rewrite HandlerMore.start_command_known by done. by apply Hquiet.
    + destruct (HandlerMore.start_command_new u w Hk) as (d & Hreg & ->).
      apply Hquiet; [done |]. unfold register_user in Hreg.
      destruct (users (db w) !! effective_user_id u); [discriminate |].
      by injection Hreg as <-.
  - by apply (Hquiet TxtHelp (db w)).
  - by apply (Hquiet TxtCleared).
  - by apply (Hquiet (TxtSettings _ _ _) (db w)).
  - destruct args as [| m rest].
    + by apply (Hquiet TxtAskModel (db w)).
    + by apply (Hquiet (TxtModelChanged m)).
  - destruct args as [| a rest]; [by apply (Hquiet TxtAskTemp (db w)) |].
    destruct (PyFloat.of_string a) as [t |] eqn:Hp.
    + destruct (Main.in_unit_range t) eqn:Hr.
      * rewrite (CommandFacts.set_temp_accepted u a rest w t) by done.
        by apply (Hquiet (TxtTempSet t)).
      * rewrite (CommandFacts.set_temp_out_of_range u a rest w t) by done.
        by apply (Hquiet TxtTempRange (db w)).
    + rewrite (CommandFacts.set_temp_not_a_number u a rest w) by done.
      by apply (Hquiet TxtTempNotNumber (db w)).
  - subst P.
    destruct (HandlerMore.handle_message_cases u w)
      as [[e ->] | [(txt & _ & ->) | (txt & e & _ & ->)]];
      unfold after_failure, after_success, after_refusal; cbn.
    + split; [by right | left]. split; [| done].
      rewrite answers_in_app; simpl. by rewrite app_nil_r.
    + split; [by right | right]. eexists txt, _.
      split; [| split; [reflexivity | done]].
      by rewrite answers_in_app.
    + split; [by right | left]. split; [| done].
      rewrite answers_in_app; simpl. by rewrite app_nil_r.
Qed.

Lemma reachable_requests w :
  reachable w ->
  Forall (fun p => params_ok p /\ messages_ok p) (requests w).
Proof.
  induction 1 as [t srv msgr | c u w Hw IH | t srv w _ IH].
  - apply Forall_nil_2.
  - destruct (reachable_store w Hw) as [Hreach Hset].
    destruct (dispatch_traffic c u w) as [[-> | ->] _]; [done |].
    apply Forall_app. split; [done |]. apply Forall_singleton. split.
    + by apply request_params_ok.
    + apply request_messages_ok; [done |].
      by apply SessionFacts.reachable_sessions_bounded.
  - done.
Qed.

(** X19. Every request the bot ever sends has parameters of the right
    kinds: the model is a string, the temperature is a float that passes the
    range check of /set_temp, max_tokens is 4000, and there is no system
    prompt.  In particular max_tokens can never be anything but 4000. *)
Theorem requests_are_well_formed (w : World) (p : Http.Payload) :
  reachable w -> p ∈ requests w ->
  (exists m, Http.model p = JStr m)
  /\ (exists t, Http.temperature p = JFloat t /\ in_unit_range t = true)
  /\ Http.max_tokens p = JInt 4000
  /\ Http.system p = None.
Proof.
  intros Hw Hp.
  pose proof (reachable_requests w Hw) as Hall.
  rewrite Forall_forall in Hall. by destruct (Hall p Hp) as [Hparams _].
Qed.

(** X20. Stored histories are made of whole exchanges, a user turn followed
    by the assistant's, and every request the bot ever sends holds such a
    history of at most 20 turns followed by the user's new turn: at most 21
    messages, the last one from the user. *)
Theorem histories_are_whole_exchanges (w : World) :
  reachable w ->
  (forall uid, exchanges (get_session uid (db w))
               /\ (length (get_session uid (db w)) <= 20)%nat)
  /\ (forall p, p ∈ requests w ->
        (exists h um, Http.messages p = h ++ [mkTurn "user" um] /\ exchanges h)
        /\ (length (Http.messages p) <= 21)%nat).
Proof.
  intros Hw. destruct (reachable_store w Hw) as [Hreach Hset]. split.
  - intros uid. split; [by apply exchanges_get_session |].
    by apply SessionFacts.get_session_bounded,
      SessionFacts.reachable_sessions_bounded.
  - intros p Hp. pose proof (reachable_requests w Hw) as Hall.
    rewrite Forall_forall in Hall.
    destruct (Hall p Hp) as [_ (h & um & Hm & Hh & Hlen)].
    split; [by exists h, um |].
    rewrite Hm, length_app; simpl. lia.
Qed.

(** X21. No command writes max_tokens, and /set_model and /set_temp write
    values of one kind only: whatever the bot has handled, a registered user's
    stored model is a string, the stored temperature is a float within the
    range, and the stored max_tokens is the 4000 of registration. *)
Theorem stored_settings_stay_typed (w : World) (uid : Z) :
  reachable w -> user_exists uid (db w) = true ->
  (exists m, get_user_settings uid (db w) !! "model" = Some (JStr m))
  /\ (exists t, get_user_settings uid (db w) !! "temperature" = Some (JFloat t)
                /\ in_unit_range t = true)
  /\ get_user_settings uid (db w) !! "max_tokens" = Some (JInt 4000).
Proof.
  intros Hw Hk. destruct (reachable_store w Hw) as [_ [Hu _]].
  unfold user_exists in Hk. unfold get_user_settings.
  destruct (users (db w) !! uid) as [r |] eqn:Hr; [| discriminate].
  apply (Hu uid r Hr).
Qed.

(** X22. The log is complete and exact: in every world the bot gets into,
    the replies of the model that were forwarded to users are, in order, the
    [bot_response] column of the log. *)
Theorem log_matches_replies (w : World) :
  reachable w ->
  answers_in (outbox w) = bot_response <$> conversations (db w).
Proof.
  induction 1 as [t srv msgr | c u w _ IH | t srv w _ IH]; [done | | done].
  destruct (dispatch_traffic c u w)
    as [_ [[-> ->] | (txt & row & -> & -> & Hrow)]]; [done |].
  rewrite fmap_app, IH; simpl. by rewrite Hrow.
Qed.

Lemma answered u w :
  always_answers (server w) ->
  (forall s, messenger w s = None) ->
  exists txt, handle_message u w = (inr (), after_success u w txt).
Proof.
  intros Hsrv Hsent.
  destruct (Hsrv (requests w) (request_of u (db w)))
    as (r & body & txt & rest & Hr & H200 & Hjson & Hbody).
  exists txt.
  by apply (ExchangeFacts.handle_message_success u w r body txt rest).
Qed.

Lemma chat_step uid name texts w :
  always_answers (server w) ->
  (forall s, messenger w s = None) ->
  (length (get_session uid (db w)) <= 20)%nat ->
  exists rows,
    conversations (db (chat uid name texts w)) = conversations (db w) ++ rows
    /\ user_message <$> rows = texts
    /\ Forall (fun row => user_id row = uid) rows
    /\ length (get_session uid (db (chat uid name texts w)))
       = Nat.min (length (get_session uid (db w)) + 2 * length texts) 20
    /\ errors (chat uid name texts w) = errors w.
Proof.
  revert w. induction texts as [| txt texts IH]; intros w Hsrv Hsent Hlen.
  - exists []. simpl. rewrite app_nil_r. split_and!; try done. lia.
  - simpl.
    destruct (answered (mkUpdate uid name txt) w Hsrv Hsent) as [ans Hans].
    rewrite Hans. cbn [snd].
    set (w1 := after_success (mkUpdate uid name txt) w ans).
    assert (Hlen1 : length (get_session uid (db w1))
                    = Nat.min (length (get_session uid (db w)) + 2) 20).
    { subst w1. unfold after_success; cbn.
      change (get_session ?x (log_conversation ?t0 ?a0 ?b0 ?c0 ?d0))
        with (get_session x d0).
      rewrite SessionFacts.get_update_session, SessionFacts.truncate_length.
      rewrite length_app; simpl. lia. }
    destruct (IH w1) as (rows & Hrows & Hmsgs & Hids & Hsess & Herr).
    { done. }
    { done. }
    { rewrite Hlen1. lia. }
    eexists (_ :: rows). split_and!.
    + rewrite Hrows. subst w1. unfold after_success; cbn.
      by rewrite <- app_assoc.
    + by rewrite fmap_cons, Hmsgs.
    + by apply Forall_cons.
    + rewrite Hsess, Hlen1. lia.
    + by rewrite Herr.
Qed.

(** X23. With a server that always answers with text and a messenger that
    delivers every answer, n plain messages of one user, handled one after
    the other, add n rows to the log, with the user's texts in order, and add
    their 2n turns to the session until it is full at 20; no error is logged
    on the way. *)
Theorem chat_fills_the_window (uid : Z) (name : option string)
    (texts : list string) (w : World) :
  always_answers (server w) ->
  (forall s, messenger w s = None) ->
  (length (get_session uid (db w)) <= 20)%nat ->
  length (get_session uid (db (chat uid name texts w)))
  = Nat.min (length (get_session uid (db w)) + 2 * length texts) 20
  /\ length (conversations (db (chat uid name texts w)))
     = (length (conversations (db w)) + length texts)%nat
  /\ user_message <$> drop (length (conversations (db w)))
                        (conversations (db (chat uid name texts w)))
     = texts
  /\ errors (chat uid name texts w) = errors w.
Proof.
  intros Hsrv Hsent Hlen.
  destruct (chat_step uid name texts w Hsrv Hsent Hlen)
    as (rows & Hrows & Hmsgs & _ & Hsess & Herr).
  split_and!; [done | | | done].
  - rewrite Hrows, length_app. f_equal.
    by rewrite <- Hmsgs, length_fmap.
  - by rewrite Hrows, drop_app_length.
Qed.

(** X24. [send_message] leaves an empty system prompt out of the request
    just as it leaves out a missing one, and carries a non-empty one; and when
    the transport raises, it lets that exception through unchanged, with the
    request counted as issued and the store untouched. *)
Theorem send_message_edges (msgs : list Turn) (mdl temp maxtok : JSON)
    (sys : string) (w : World) (e : Exception) :
  ClaudeClient.send_message msgs mdl temp maxtok (Some "") w
  = ClaudeClient.send_message msgs mdl temp maxtok None w
  /\ (sys <> "" ->
      Http.system (ClaudeClient.build_payload msgs mdl temp maxtok (Some sys))
      = Some sys)
  /\ (server w (requests w)
        (ClaudeClient.build_payload msgs mdl temp maxtok (Some sys))
      = Http.Raises e ->
      ClaudeClient.send_message msgs mdl temp maxtok (Some sys) w
      = (inl e,
         mkWorld (db w) (now w) (server w)
           (requests w
            ++ [ClaudeClient.build_payload msgs mdl temp maxtok (Some sys)])
           (outbox w) (errors w) (calls w) (messenger w))).
Proof.
  split_and!.
  - done.
  - intros Hne. unfold ClaudeClient.build_payload; simpl.
    destruct (String.eqb_spec sys ""); [done | done].
  - intros Hsrv.
    unfold ClaudeClient.send_message, ClaudeClient.post, mbind, M_bind.
    by rewrite Hsrv.
Qed.

End RunFacts.

(** ** The further properties on sample data *)

Module MoreOnSamples.
Import Database SessionManager Main Outcomes Bot Samples Runs.

Lemma greeted_reachable : reachable greeted.
Proof. apply handled. exact (boot 5 (answers "hi ann") (fun _ => None)). Qed.

Lemma chatted_reachable : reachable chatted.
Proof. apply handled, greeted_reachable. Qed.

Lemma chatted_store_reachable : Reach.reachable (db chatted).
Proof. apply RunFacts.reachable_store, chatted_reachable. Qed.

Lemma setting_writes_compose_witness :
  "model" <> "temperature"
  /\ update_user_setting 7 "model" (JStr "a")
       (update_user_setting 7 "temperature" (JInt 1) db_ann)
     = update_user_setting 7 "temperature" (JInt 1)
         (update_user_setting 7 "model" (JStr "a") db_ann).
Proof.
  assert (Hne : "model" <> "temperature") by discriminate.
  split; [exact Hne |].
  exact (proj2 (StoreMore.setting_writes_compose 7 "model" "temperature"
                  (JStr "a") (JInt 1) db_ann) Hne).
Defined.

Lemma setting_write_frame_witness :
  users db_ann !! (7 : Z) = Some (mkUser (Some "ann") 1 default_settings)
  /\ users (update_user_setting 7 "model" (JStr "a") db_ann) !! (7 : Z)
     = Some (mkUser (Some "ann") 1 (<["model" := JStr "a"]> default_settings))
  /\ (8 : Z) <> 7
  /\ users (update_user_setting 7 "model" (JStr "a") db_ann) !! (8 : Z)
     = users db_ann !! (8 : Z).
Proof.
  assert (Hrow : users db_ann !! (7 : Z)
                 = Some (mkUser (Some "ann") 1 default_settings))
    by reflexivity.
  assert (Hne : (8 : Z) <> 7) by discriminate.
  destruct (StoreMore.setting_write_frame 7 "model" (JStr "a") db_ann _ Hrow)
    as (Hsame & Hothers & _).
  split; [exact Hrow |]. split; [exact Hsame |].
  split; [exact Hne | exact (Hothers 8 Hne)].
Defined.

Lemma register_round_trip_witness :
  user_exists 8 db_ann = false
  /\ (exists d, register_user 3 8 None db_ann = inr d
                /\ users d !! (8 : Z) = Some (mkUser None 3 default_settings)
                /\ (7 : Z) <> 8
                /\ users d !! (7 : Z) = users db_ann !! (7 : Z)).
Proof.
  destruct (StoreMore.register_round_trip 3 8 None db_ann) as [Hiff Hrow].
  assert (Hnew : user_exists 8 db_ann = false) by reflexivity.
  destruct (proj2 Hiff Hnew) as [d Hd].
  destruct (Hrow d Hd) as (H8 & _ & Hothers & _).
  assert (Hne : (7 : Z) <> 8) by discriminate.
  split; [exact Hnew |]. exists d.
  split; [exact Hd |]. split; [exact H8 |].
  split; [exact Hne | exact (proj1 (Hothers 7 Hne))].
Defined.

Lemma save_frame_witness :
  (8 : Z) <> 7
  /\ get_session 8 (update_session 2 7 [mkTurn "user" "x"] db_ann)
     = get_session 8 db_ann.
Proof.
  assert (Hne : (8 : Z) <> 7) by discriminate.
  destruct (StoreMore.save_frame 2 7 [mkTurn "user" "x"] db_ann)
    as (_ & Hothers & _).
  split; [exact Hne | exact (Hothers 8 Hne)].
Defined.

Lemma save_loaded_history_witness :
  Reach.reachable (db chatted)
  /\ get_session 7 (update_session 9 7 (get_session 7 (db chatted)) (db chatted))
     = get_session 7 (db chatted).
Proof.
  split; [exact chatted_store_reachable |].
  exact (proj2 (StoreMore.save_loaded_history 9 7 [] (db chatted))
           chatted_store_reachable).
Defined.

Lemma clear_creates_no_row_witness :
  sessions db_ann !! (7 : Z) = None
  /\ clear_session 4 7 db_ann = db_ann
  /\ sessions (db chatted) !! (7 : Z)
     = Some (mkSession [mkTurn "user" "hello"; mkTurn "assistant" "hi ann"] 5)
  /\ sessions (clear_session 4 7 (db chatted)) !! (7 : Z)
     = Some (mkSession [] 4).
Proof.
  assert (Hnone : sessions db_ann !! (7 : Z) = None) by reflexivity.
  assert (Hrow : sessions (db chatted) !! (7 : Z)
                 = Some (mkSession [mkTurn "user" "hello";
                                    mkTurn "assistant" "hi ann"] 5))
    by reflexivity.
  destruct (StoreMore.clear_creates_no_row 4 7 db_ann) as (Hkeep & _ & _).
  destruct (StoreMore.clear_creates_no_row 4 7 (db chatted)) as (_ & _ & Hreset).
  split; [exact Hnone |]. split; [exact (Hkeep Hnone) |].
  split; [exact Hrow | exact (Hreset _ Hrow)].
Defined.

Lemma log_ids_in_order_witness :
  Reach.reachable (db chatted)
  /\ conversations_seq (db chatted) = 1
  /\ conversations (db chatted) !! 0%nat
     = Some (mkConversation 1 7 "hello" "hi ann" 5).
Proof.
  destruct (StoreMore.log_ids_in_order (db chatted) chatted_store_reachable)
    as (Hseq & _ & _).
  split; [exact chatted_store_reachable |].
  split; [exact Hseq | reflexivity].
Defined.

Lemma defaults_stay_present_witness :
  Reach.reachable (db chatted)
  /\ users (db chatted) !! (7 : Z) = Some (mkUser (Some "ann") 5 default_settings)
  /\ is_Some (get_user_settings 7 (db chatted) !! "max_tokens").
Proof.
  assert (Hrow : users (db chatted) !! (7 : Z)
                 = Some (mkUser (Some "ann") 5 default_settings))
    by reflexivity.
  destruct (StoreMore.defaults_stay_present (db chatted) 7 _
              chatted_store_reachable Hrow) as (_ & _ & Hk).
  split; [exact chatted_store_reachable |]. split; [exact Hrow | exact Hk].
Defined.

Lemma answered_message_is_stored_witness :
  server greeted (requests greeted) (request_of ann (db greeted))
  = Http.Returns (Http.mkResponse 200 "{...}"
                    (inr (Http.mkBody (Some [Http.mkBlock (Some "hi ann")]))))
  /\ get_session 7 (db chatted)
     = [mkTurn "user" "hello"; mkTurn "assistant" "hi ann"]
  /\ (8 : Z) <> 7
  /\ get_session 8 (db chatted) = get_session 8 (db greeted)
  /\ messenger greeted "hi ann" = None
  /\ conversations (db chatted) = [mkConversation 1 7 "hello" "hi ann" 5]
  /\ messenger speechless "" = Some (BadRequest "Message text is empty")
  /\ get_session 7 (db (snd (handle_message ann speechless)))
     = [mkTurn "user" "hello"; mkTurn "assistant" ""]
  /\ conversations (db (snd (handle_message ann speechless))) = [].
Proof.
  destruct (HandlerMore.answered_message_is_stored ann greeted
              (Http.mkResponse 200 "{...}"
                 (inr (Http.mkBody (Some [Http.mkBlock (Some "hi ann")]))))
              (Http.mkBody (Some [Http.mkBlock (Some "hi ann")]))
              "hi ann" [] eq_refl eq_refl eq_refl eq_refl)
    as (Hsess & _ & _ & Hothers & Hlog & _).
  destruct (HandlerMore.answered_message_is_stored ann speechless
              (Http.mkResponse 200 "{...}"
                 (inr (Http.mkBody (Some [Http.mkBlock (Some "")]))))
              (Http.mkBody (Some [Http.mkBlock (Some "")]))
              "" [] eq_refl eq_refl eq_refl eq_refl)
    as (Hsess' & _ & _ & _ & _ & Hkept).
  assert (Hne : (8 : Z) <> 7) by discriminate.
  split; [reflexivity |]. split; [exact Hsess |].
  split; [exact Hne |]. split; [exact (Hothers 8 Hne) |].
  split; [reflexivity |]. split; [exact (Hlog eq_refl) |].
  split; [reflexivity |]. split; [exact Hsess' |].
  exact (proj1 (Hkept _ eq_refl)).
Defined.

Lemma failure_is_logged_witness :
  server (world db_ann overloaded) [] (request_of ann db_ann)
  = Http.Returns (Http.mkResponse 529 "overloaded"
                    (inl (Http.NotJson "Expecting value")))
  /\ (529 : Z) <> 200
  /\ errors (snd (handle_message ann (world db_ann overloaded)))
     = [PyException "API error: 529, overloaded"].
Proof.
  destruct (HandlerMore.failure_is_logged ann (world db_ann overloaded))
    as [_ Hrefused].
  assert (Hne : (529 : Z) <> 200) by discriminate.
  split; [reflexivity |]. split; [exact Hne |].
  exact (Hrefused (Http.mkResponse 529 "overloaded"
                     (inl (Http.NotJson "Expecting value")))
           eq_refl Hne).
Defined.

Lemma other_users_untouched_witness :
  (8 : Z) <> effective_user_id ann
  /\ get_session 8 (db (snd (dispatch Plain ann greeted)))
     = get_session 8 (db greeted)
  /\ user_exists 8 (db (snd (dispatch Clear ann chatted)))
     = user_exists 8 (db chatted).
Proof.
  assert (Hne : (8 : Z) <> effective_user_id ann) by discriminate.
  destruct (HandlerMore.other_users_untouched Plain ann greeted 8 Hne)
    as (Hsess & _ & _).
  destruct (HandlerMore.other_users_untouched Clear ann chatted 8 Hne)
    as (_ & _ & Hex).
  split; [exact Hne |]. split; [exact Hsess | exact Hex].
Defined.

Lemma only_start_registers_witness :
  Plain <> Start
  /\ user_exists 8 (db (snd (dispatch Plain bob greeted))) = user_exists 8 (db greeted)
  /\ user_exists 7 (db greeted) = true
  /\ user_exists 7 (db (snd (dispatch Start bob greeted))) = true.
Proof.
  assert (Hne : Plain <> Start) by discriminate.
  assert (Hann : user_exists 7 (db greeted) = true) by reflexivity.
  destruct (HandlerMore.only_start_registers Plain bob greeted 8) as (Hrest & _ & _).
  destruct (HandlerMore.only_start_registers Start bob greeted 7) as (_ & Hkeep & _).
  split; [exact Hne |]. split; [exact (Hrest Hne) |].
  split; [exact Hann | exact (Hkeep Hann)].
Defined.

Lemma start_is_idempotent_witness :
  effective_user_id (mkUpdate 7 (Some "anna") "") = effective_user_id ann
  /\ db (snd (start_command (mkUpdate 7 (Some "anna") "")
                (later 9 overloaded greeted)))
     = db greeted.
Proof.
  assert (Hsame : effective_user_id (mkUpdate 7 (Some "anna") "")
                  = effective_user_id ann) by reflexivity.
  destruct (HandlerMore.start_is_idempotent ann (mkUpdate 7 (Some "anna") "")
              (world Database.empty (answers "hi ann")) 9 overloaded Hsame)
    as (_ & _ & _ & Hdb).
  split; [exact Hsame | exact Hdb].
Defined.

Lemma cleared_history_is_not_sent_witness :
  effective_user_id (mkUpdate 7 (Some "ann") "again") = effective_user_id ann
  /\ get_session 7 (db chatted)
     = [mkTurn "user" "hello"; mkTurn "assistant" "hi ann"]
  /\ Http.messages (request_of (mkUpdate 7 (Some "ann") "again")
                      (db (snd (clear_command ann chatted))))
     = [mkTurn "user" "again"].
Proof.
  assert (Hsame : effective_user_id (mkUpdate 7 (Some "ann") "again")
                  = effective_user_id ann) by reflexivity.
  destruct (HandlerMore.cleared_history_is_not_sent ann
              (mkUpdate 7 (Some "ann") "again") chatted Hsame)
    as (_ & Hmsgs & _).
  split; [exact Hsame |]. split; [reflexivity | exact Hmsgs].
Defined.

Lemma chosen_settings_are_sent_witness :
  is_Some (users (db greeted) !! effective_user_id ann)
  /\ Http.model (request_of ann
                   (db (snd (set_model_command ann ["claude-x"] greeted))))
     = JStr "claude-x"
  /\ accepted "0.5" (S754_finite false 4503599627370496 (-53))
  /\ Http.temperature (request_of ann
                         (db (snd (set_temp_command ann ["0.5"] greeted))))
     = JFloat (S754_finite false 4503599627370496 (-53)).
Proof.
  assert (Hrow : is_Some (users (db greeted) !! effective_user_id ann))
    by (eexists; reflexivity).
  assert (Hhalf : accepted "0.5" (S754_finite false 4503599627370496 (-53)))
    by (split; reflexivity).
  destruct (HandlerMore.chosen_settings_are_sent ann greeted "claude-x" "0.5" []
              (S754_finite false 4503599627370496 (-53)) Hrow)
    as [(Hmodel & _) Htemp].
  split; [exact Hrow |]. split; [exact Hmodel |].
  split; [exact Hhalf | exact (proj1 (Htemp Hhalf))].
Defined.

Lemma accepted_temperature_is_finite_witness :
  accepted "0.5" (S754_finite false 4503599627370496 (-53))
  /\ match S754_finite false 4503599627370496 (-53) with
     | S754_zero _ | S754_finite false _ _ => True
     | _ => False
     end
  /\ PyFloat.of_string "nan" = Some S754_nan
  /\ in_unit_range S754_nan = false.
Proof.
  assert (Hhalf : accepted "0.5" (S754_finite false 4503599627370496 (-53)))
    by (split; reflexivity).
  destruct (HandlerMore.accepted_temperature_is_finite "0.5"
              (S754_finite false 4503599627370496 (-53)))
    as (Hfinite & Hnan & _).
  split; [exact Hhalf |]. split; [exact (Hfinite Hhalf) |].
  split; [reflexivity | exact Hnan].
Defined.

Lemma requests_are_well_formed_witness :
  reachable chatted
  /\ request_of ann (db greeted) ∈ requests chatted
  /\ Http.max_tokens (request_of ann (db greeted)) = JInt 4000
  /\ Http.system (request_of ann (db greeted)) = None.
Proof.
  assert (Hin : request_of ann (db greeted) ∈ requests chatted).
  { unfold chatted; simpl.
    rewrite ExchangeFacts.handle_message_requests.
    apply elem_of_app. right. apply list_elem_of_singleton. reflexivity. }
  destruct (RunFacts.requests_are_well_formed chatted _ chatted_reachable Hin)
    as (_ & _ & Hmax & Hsys).
  split; [exact chatted_reachable |]. split; [exact Hin |].
  split; [exact Hmax | exact Hsys].
Defined.

Lemma histories_are_whole_exchanges_witness :
  reachable chatted
  /\ exchanges (get_session 7 (db chatted))
  /\ request_of ann (db greeted) ∈ requests chatted
  /\ (length (Http.messages (request_of ann (db greeted))) <= 21)%nat.
Proof.
  assert (Hin : request_of ann (db greeted) ∈ requests chatted).
  { unfold chatted; simpl.
    rewrite ExchangeFacts.handle_message_requests.
    apply elem_of_app. right. apply list_elem_of_singleton. reflexivity. }
  destruct (RunFacts.histories_are_whole_exchanges chatted chatted_reachable)
    as [Hsess Hreq].
  split; [exact chatted_reachable |].
  split; [exact (proj1 (Hsess 7)) |].
  split; [exact Hin | exact (proj2 (Hreq _ Hin))].
Defined.

Lemma stored_settings_stay_typed_witness :
  reachable chatted
  /\ user_exists 7 (db chatted) = true
  /\ get_user_settings 7 (db chatted) !! "max_tokens" = Some (JInt 4000).
Proof.
  assert (Hk : user_exists 7 (db chatted) = true) by reflexivity.
  destruct (RunFacts.stored_settings_stay_typed chatted 7 chatted_reachable Hk)
    as (_ & _ & Hmax).
  split; [exact chatted_reachable |]. split; [exact Hk | exact Hmax].
Defined.

Lemma log_matches_replies_witness :
  reachable chatted
  /\ answers_in (outbox chatted) = ["hi ann"]
  /\ bot_response <$> conversations (db chatted) = ["hi ann"].
Proof.
  pose proof (RunFacts.log_matches_replies chatted chatted_reachable) as Heq.
  split; [exact chatted_reachable |].
  split; [reflexivity |]. rewrite <- Heq. reflexivity.
Defined.

Lemma answers_always_answers : always_answers (answers "ok").
Proof.
  intros reqs p.
  exists (Http.mkResponse 200 "{...}"
            (inr (Http.mkBody (Some [Http.mkBlock (Some "ok")])))).
  exists (Http.mkBody (Some [Http.mkBlock (Some "ok")])).
  exists "ok". exists (@nil Http.Block).
  split_and!; reflexivity.
Qed.

Lemma chat_fills_the_window_witness :
  always_answers (server (world db_ann (answers "ok")))
  /\ (forall s, messenger (world db_ann (answers "ok")) s = None)
  /\ (length (get_session 7 (db (world db_ann (answers "ok")))) <= 20)%nat
  /\ length (get_session 7
               (db (chat 7 (Some "ann")
                      ["1"; "2"; "3"; "4"; "5"; "6"; "7"; "8"; "9"; "10"; "11"]
                      (world db_ann (answers "ok")))))
     = 20%nat
  /\ length (conversations
               (db (chat 7 (Some "ann")
                      ["1"; "2"; "3"; "4"; "5"; "6"; "7"; "8"; "9"; "10"; "11"]
                      (world db_ann (answers "ok")))))
     = 11%nat.
Proof.
  assert (Hlen : (length (get_session 7 (db (world db_ann (answers "ok"))))
                  <= 20)%nat) by (vm_compute; lia).
  assert (Hsent : forall s, messenger (world db_ann (answers "ok")) s = None)
    by reflexivity.
  destruct (RunFacts.chat_fills_the_window 7 (Some "ann")
              ["1"; "2"; "3"; "4"; "5"; "6"; "7"; "8"; "9"; "10"; "11"]
              (world db_ann (answers "ok")) answers_always_answers Hsent Hlen)
    as (Hsess & Hlog & _).
  split; [exact answers_always_answers |]. split; [exact Hsent |].
  split; [exact Hlen |].
  split; [exact Hsess | exact Hlog].
Defined.

Lemma send_message_edges_witness :
  "be brief" <> ""
  /\ Http.system (ClaudeClient.build_payload [mkTurn "user" "hello"]
                    (JStr "m") (JInt 0) (JInt 10) (Some "be brief"))
     = Some "be brief"
  /\ ClaudeClient.send_message [mkTurn "user" "hello"] (JStr "m") (JInt 0)
       (JInt 10) (Some "")
       (world db_ann (fun _ _ => Http.Raises (ClientError "no route")))
     = ClaudeClient.send_message [mkTurn "user" "hello"] (JStr "m") (JInt 0)
         (JInt 10) None
         (world db_ann (fun _ _ => Http.Raises (ClientError "no route")))
  /\ fst (ClaudeClient.send_message [mkTurn "user" "hello"] (JStr "m") (JInt 0)
            (JInt 10) (Some "be brief")
            (world db_ann (fun _ _ => Http.Raises (ClientError "no route"))))
     = inl (ClientError "no route").
Proof.
  assert (Hne : "be brief" <> "") by discriminate.
  destruct (RunFacts.send_message_edges [mkTurn "user" "hello"] (JStr "m")
              (JInt 0) (JInt 10) "be brief"
              (world db_ann (fun _ _ => Http.Raises (ClientError "no route")))
              (ClientError "no route"))
    as (Hempty & Hsys & Hraise).
  split; [exact Hne |]. split; [exact (Hsys Hne) |].
  split; [exact Hempty |]. by rewrite (Hraise eq_refl).
Defined.

End MoreOnSamples.
